(** * PROYECTO2-UNTREF: the "computacion" REST API

    A shallow embedding of [utils.js] and of the request handlers of
    [server.js], with the parts of the JavaScript runtime and of the
    document store they rely on, followed by the properties of the
    handlers.

    Conventions of the embedding:
    - a JavaScript string is a Rocq [string] (the UTF-8 bytes of the text);
      the white space removed by [trim], [parseInt] and [parseFloat] is the
      ASCII white space;
    - a JavaScript number is [NaN], an infinity or an exact decimal
      [m * 10^e]; the rounding of IEEE binary64 is not part of the model;
    - a request body is the object produced by [express.json()]: the list of
      its own properties, in the order of [Object.keys];
    - a handler is a computation over the state of the store that emits the
      events it causes (connection, queries, the response) in order. *)

From Stdlib Require Import ZArith String Ascii List Bool Lia.
From Stdlib Require Import DecimalString HexadecimalString.
From Stdlib Require Import Sorted.
From stdpp Require Import base list strings.

#[local] Set Warnings "-register-all".

Open Scope string_scope.
Open Scope list_scope.
Open Scope Z_scope.

(** ** The JavaScript values the handlers manipulate *)

Module JS.

Inductive number :=
| NaN
| Inf (neg : bool)
| Fin (m e : Z).

Inductive value :=
| VUndefined
| VNull
| VBool (b : bool)
| VNum (n : number)
| VStr (s : string)
| VArr (l : list value)
| VObj (o : list (string * value))
| VOid (n : N).

(** An object literal: its own properties in enumeration order. *)
Definition object := list (string * value).

(** *** Strings *)

Definition esBlanco (c : ascii) : bool :=
  existsb (Ascii.eqb c) [" "; "009"; "010"; "011"; "012"; "013"]%char.

Fixpoint trimStart (s : string) : string :=
  match s with
  | String c r => if esBlanco c then trimStart r else s
  | EmptyString => EmptyString
  end.

Fixpoint trimEnd (s : string) : string :=
  match s with
  | String c r =>
      let r' := trimEnd r in
      if esBlanco c && String.eqb r' "" then "" else String c r'
  | EmptyString => EmptyString
  end.

(** [String.prototype.trim] *)
Definition trim (s : string) : string := trimEnd (trimStart s).

(** [Array.prototype.join] *)
Definition join (sep : string) (l : list string) : string := String.concat sep l.

Definition repite (n : nat) (c : ascii) : string :=
  string_of_list_ascii (repeat c n).

(** *** Numbers *)

Definition valorDigito (radix : Z) (c : ascii) : option Z :=
  let n := Z.of_N (N_of_ascii c) in
  let d := if (48 <=? n) && (n <=? 57) then n - 48
           else if (97 <=? n) && (n <=? 122) then n - 87
           else if (65 <=? n) && (n <=? 90) then n - 55
           else 36 in
  if d <? radix then Some d else None.

(** The longest prefix of digits of the radix, read as an integer;
    [acc] is the value read so far ([None]: no digit yet). *)
Fixpoint leeDigitos (radix : Z) (s : string) (acc : option Z) : option Z :=
  match s with
  | String c r =>
      match valorDigito radix c with
      | Some d => leeDigitos radix r (Some (radix * default 0 acc + d))
      | None => acc
      end
  | EmptyString => acc
  end.

Definition quitaSigno (s : string) : bool * string :=
  match s with
  | String "-" r => (true, r)
  | String "+" r => (false, r)
  | _ => (false, s)
  end.

Definition conSigno (neg : bool) (v : Z) : Z := if neg then - v else v.

(** [parseInt(s)] without a radix: leading white space, a sign, an
    optional [0x] prefix, then the longest run of digits. *)
Definition parseInt (s : string) : number :=
  let '(neg, s2) := quitaSigno (trimStart s) in
  let '(radix, s3) :=
    match s2 with
    | String "0" (String x r) =>
        if Ascii.eqb x "x" || Ascii.eqb x "X" then (16, r) else (10, s2)
    | _ => (10, s2)
    end in
  match leeDigitos radix s3 None with
  | None => NaN
  | Some v => Fin (conSigno neg v) 0
  end.

(** A run of decimal digits: its value, its length and what follows. *)
Fixpoint tramoDecimal (s : string) (v : Z) (n : nat) : Z * nat * string :=
  match s with
  | String c r =>
      match valorDigito 10 c with
      | Some d => tramoDecimal r (10 * v + d) (S n)
      | None => (v, n, s)
      end
  | EmptyString => (v, n, s)
  end.

Definition exponente (s : string) : Z :=
  match s with
  | String c r =>
      if Ascii.eqb c "e" || Ascii.eqb c "E" then
        let '(neg, r') := quitaSigno r in
        let '(v, n, _) := tramoDecimal r' 0 0 in
        match n with O => 0 | _ => conSigno neg v end
      else 0
  | EmptyString => 0
  end.

(** [parseFloat(s)]: the longest prefix that is a decimal literal. *)
Definition parseFloat (s : string) : number :=
  let '(neg, s2) := quitaSigno (trimStart s) in
  if String.prefix "Infinity" s2 then Inf neg
  else
    let '(vi, ni, r1) := tramoDecimal s2 0 0 in
    let '(v, nf, r2) :=
      match r1 with
      | String "." r => tramoDecimal r vi 0
      | _ => (vi, O, r1)
      end in
    match ni, nf with
    | O, O => NaN
    | _, _ => Fin (conSigno neg v) (exponente r2 - Z.of_nat nf)
    end.

Definition decimalDe (n : Z) : string :=
  DecimalString.NilZero.string_of_uint (N.to_uint (Z.to_N n)).

(** The trailing zeros of [m] move to the exponent; [m] has no more of
    them than binary digits, which bounds the iteration. *)
Fixpoint quitaCeros (fuel : nat) (m e : Z) : Z * Z :=
  match fuel with
  | O => (m, e)
  | S f =>
      if (m mod 10 =? 0) && negb (m =? 0)
      then quitaCeros f (m / 10) (e + 1)
      else (m, e)
  end.

(** [Number::toString]: the digits [s], their count [k] and the position
    [n] of the decimal point select the notation. *)
Definition numToString (x : number) : string :=
  match x with
  | NaN => "NaN"
  | Inf false => "Infinity"
  | Inf true => "-Infinity"
  | Fin m e =>
      if m =? 0 then "0" else
      let '(a, e') := quitaCeros (Z.to_nat (Z.log2 (Z.abs m)) + 1) (Z.abs m) e in
      let s := decimalDe a in
      let k := Z.of_nat (String.length s) in
      let n := k + e' in
      (if m <? 0 then "-" else "") +:+
      (if (k <=? n) && (n <=? 21) then s +:+ repite (Z.to_nat (n - k)) "0"
       else if (0 <? n) && (n <=? 21) then
         substring 0 (Z.to_nat n) s +:+ "." +:+
         substring (Z.to_nat n) (Z.to_nat (k - n)) s
       else if (-6 <? n) && (n <=? 0) then
         "0." +:+ repite (Z.to_nat (- n)) "0" +:+ s
       else
         let ex := (if n - 1 <? 0 then "-" else "+") +:+ decimalDe (Z.abs (n - 1)) in
         if k =? 1 then s +:+ "e" +:+ ex
         else substring 0 1 s +:+ "." +:+
              substring 1 (Z.to_nat (k - 1)) s +:+ "e" +:+ ex)
  end.

Definition cmpFin (m1 e1 m2 e2 : Z) : comparison :=
  let e := Z.min e1 e2 in
  Z.compare (m1 * 10 ^ (e1 - e)) (m2 * 10 ^ (e2 - e)).

(** [a < b], [a <= b] and [a === b] on numbers ([NaN] compares false). *)
Definition numLt (a b : number) : bool :=
  match a, b with
  | NaN, _ | _, NaN => false
  | Inf na, Inf nb => na && negb nb
  | Inf na, Fin _ _ => na
  | Fin _ _, Inf nb => negb nb
  | Fin m1 e1, Fin m2 e2 =>
      match cmpFin m1 e1 m2 e2 with Lt => true | _ => false end
  end.

Definition numEq (a b : number) : bool :=
  match a, b with
  | Inf na, Inf nb => Bool.eqb na nb
  | Fin m1 e1, Fin m2 e2 =>
      match cmpFin m1 e1 m2 e2 with Eq => true | _ => false end
  | _, _ => false
  end.

Definition numLe (a b : number) : bool := numLt a b || numEq a b.

Definition isNaN (a : number) : bool :=
  match a with NaN => true | _ => false end.

(** [!!x] for a number: false for [NaN] and for zero. *)
Definition numTruthy (a : number) : bool :=
  match a with
  | NaN => false
  | Inf _ => true
  | Fin m _ => negb (m =? 0)
  end.

(** *** Values *)

Definition hexDe (n : N) : string :=
  HexadecimalString.NilZero.string_of_uint (N.to_hex_uint n).

(** [ToString]: what [parseInt] and [parseFloat] apply to an argument
    that is not a string, and what a template literal interpolates. *)
Fixpoint ToString (v : value) : string :=
  match v with
  | VUndefined => "undefined"
  | VNull => "null"
  | VBool true => "true"
  | VBool false => "false"
  | VNum n => numToString n
  | VStr s => s
  | VArr l =>
      join ","
        (map (fun x => match x with
                       | VUndefined | VNull => ""
                       | _ => ToString x
                       end) l)
  | VObj _ => "[object Object]"
  | VOid n =>
      let h := hexDe n in
      repite (24 - String.length h)%nat "0" +:+ h
  end.

(** [!!v] *)
Definition truthy (v : value) : bool :=
  match v with
  | VUndefined | VNull => false
  | VBool b => b
  | VNum n => numTruthy n
  | VStr s => negb (String.eqb s "")
  | VArr _ | VObj _ | VOid _ => true
  end.

(** [v === w] between a value and a primitive. *)
Definition strictEq (v w : value) : bool :=
  match v, w with
  | VUndefined, VUndefined | VNull, VNull => true
  | VBool a, VBool b => Bool.eqb a b
  | VNum a, VNum b => numEq a b
  | VStr a, VStr b => String.eqb a b
  | _, _ => false
  end.

(** [o.k]: the property, or [undefined]. *)
Fixpoint prop (o : object) (k : string) : value :=
  match o with
  | [] => VUndefined
  | (k', v) :: r => if String.eqb k' k then v else prop r k
  end.

(** [Object.keys(o)] *)
Definition keys (o : object) : list string := map fst o.

End JS.

(** ** Regular expressions

    The fragment of the pattern syntax that the search handlers can be
    given and that the model covers: literal characters, [.], groups,
    alternation, the quantifiers [*], [+] and [?], the anchors [^] and [$],
    and escaped syntax characters.  A pattern outside the fragment is not
    compiled ([compila] gives [None]). *)

Module Regex.

Inductive re :=
| Nada
| Vacio
| Car (c : ascii)
| Punto
| Todo
| Bol
| Eol
| Sec (a b : re)
| Alt (a b : re)
| Rep (a : re).

Definition minuscula (c : ascii) : ascii :=
  let n := N_of_ascii c in
  if ((65 <=? n) && (n <=? 90))%N then ascii_of_N (n + 32) else c.

(** Comparison of two characters under the [i] flag. *)
Definition igualCar (a b : ascii) : bool :=
  Ascii.eqb (minuscula a) (minuscula b).

Definition sec (a b : re) : re :=
  match a, b with
  | Nada, _ | _, Nada => Nada
  | Vacio, _ => b
  | _, _ => Sec a b
  end.

Definition alt (a b : re) : re :=
  match a, b with
  | Nada, _ => b
  | _, Nada => a
  | _, _ => Alt a b
  end.

(** Does [r] match the empty string here?  [ini]: at the start of the
    subject; [fin]: at its end. *)
Fixpoint anulable (ini fin : bool) (r : re) : bool :=
  match r with
  | Nada | Car _ | Punto | Todo => false
  | Vacio | Rep _ => true
  | Bol => ini
  | Eol => fin
  | Sec a b => anulable ini fin a && anulable ini fin b
  | Alt a b => anulable ini fin a || anulable ini fin b
  end.

(** What is left of [r] after it has read the character [c]. *)
Fixpoint deriva (ini : bool) (c : ascii) (r : re) : re :=
  match r with
  | Nada | Vacio | Bol | Eol => Nada
  | Car a => if igualCar a c then Vacio else Nada
  | Punto => if Ascii.eqb c "010" || Ascii.eqb c "013" then Nada else Vacio
  | Todo => Vacio
  | Sec a b =>
      alt (sec (deriva ini c a) b)
          (if anulable ini false a then deriva ini c b else Nada)
  | Alt a b => alt (deriva ini c a) (deriva ini c b)
  | Rep a => sec (deriva ini c a) (Rep a)
  end.

Fixpoint recorre (ini : bool) (r : re) (s : string) : bool :=
  match s with
  | EmptyString => anulable ini true r
  | String c s' => recorre false (deriva ini c r) s'
  end.

(** [r.test(s)] under the [i] flag: some substring of [s] matches. *)
Definition test (r : re) (s : string) : bool :=
  recorre true (Sec (Rep Todo) (Sec r (Rep Todo))) s.

Definition esSintactico (c : ascii) : bool :=
  existsb (Ascii.eqb c)
    ["^"; "$"; "\"; "."; "*"; "+"; "?"; "("; ")"; "["; "]"; "{"; "}"; "|"; "/"]%char.

(** A lazy quantifier ([*?], [+?], [??]) accepts the same subjects. *)
Definition perezoso (s : string) : string :=
  match s with String "?" r => r | _ => s end.

Definition cuantifica (a : re) (s : string) : re * string :=
  match s with
  | String "*" r => (Rep a, perezoso r)
  | String "+" r => (Sec a (Rep a), perezoso r)
  | String "?" r => (Alt a Vacio, perezoso r)
  | _ => (a, s)
  end.

Fixpoint disyuncion (n : nat) (s : string) : option (re * string) :=
  match n with
  | O => None
  | S n =>
      match alternativa n s with
      | Some (a, String "|" r) =>
          match disyuncion n r with
          | Some (b, r') => Some (Alt a b, r')
          | None => None
          end
      | x => x
      end
  end
with alternativa (n : nat) (s : string) : option (re * string) :=
  match n with
  | O => None
  | S n =>
      match s with
      | EmptyString | String "|" _ | String ")" _ => Some (Vacio, s)
      | _ =>
          match termino n s with
          | Some (t, r) =>
              match alternativa n r with
              | Some (a, r') => Some (Sec t a, r')
              | None => None
              end
          | None => None
          end
      end
  end
with termino (n : nat) (s : string) : option (re * string) :=
  match n with
  | O => None
  | S n =>
      match s with
      | String "^" r => Some (Bol, r)
      | String "$" r => Some (Eol, r)
      | String "." r => Some (cuantifica Punto r)
      | String "\" (String c r) =>
          if esSintactico c then Some (cuantifica (Car c) r) else None
      | String "(" r =>
          let r := match r with String "?" (String ":" r') => r' | _ => r end in
          match r with
          | String "?" _ => None
          | _ =>
              match disyuncion n r with
              | Some (d, String ")" r') => Some (cuantifica d r')
              | _ => None
              end
          end
      | String c r =>
          if existsb (Ascii.eqb c) ["*"; "+"; "?"; "["; "{"; "\"]%char then None
          else Some (cuantifica (Car c) r)
      | EmptyString => None
      end
  end.

(** [new RegExp(p, "i")] *)
Definition compila (p : string) : option re :=
  match disyuncion (4 * String.length p + 4) p with
  | Some (r, EmptyString) => Some r
  | _ => None
  end.

End Regex.

(** ** The document store

    The collection operations of the driver that the handlers call, on a
    collection held as the list of its documents in natural order.
    Comparisons are typed, as in the store: a number in a filter is
    compared with the fields that hold numbers, a pattern with the fields
    that hold strings; the text "10" is not the number 10. *)

Module Mongo.
Import JS.

Definition document := object.

(** The query operators the handlers build. *)
Inductive condicion :=
| Igual (n : number)
| Gte (n : number)
| Expr (r : Regex.re).

Definition filtro : Type := string * condicion.

(** Equality of two stored numbers: as [===], and [NaN] equals itself. *)
Definition numIgual (a b : number) : bool :=
  match a, b with
  | NaN, NaN => true
  | _, _ => numEq a b
  end.

Definition cumple (c : condicion) (v : value) : bool :=
  match c, v with
  | Igual n, VNum x => numIgual x n
  | Gte n, VNum x => numLe n x
  | Expr r, VStr s => Regex.test r s
  | _, _ => false
  end.

(** A field satisfies a condition when its value does or, for an array,
    when one of its elements does. *)
Definition coincide (f : filtro) (d : document) : bool :=
  match prop d f.1 with
  | VArr l => existsb (cumple f.2) l
  | v => cumple f.2 v
  end.

Definition find (f : filtro) (col : list document) : list document :=
  List.filter (coincide f) col.

Definition findOne (f : filtro) (col : list document) : option document :=
  List.find (coincide f) col.

(** [$set] of one field: replaced in place, or added at the end. *)
Definition asigna (d : document) (kv : string * value) : document :=
  if existsb (String.eqb kv.1) (keys d)
  then map (fun p : string * value => if String.eqb p.1 kv.1 then (p.1, kv.2) else p) d
  else d ++ [kv].

Definition aplicaSet (cambios : object) (d : document) : document :=
  fold_left asigna cambios d.

Fixpoint valueEqb (a b : value) : bool :=
  match a, b with
  | VUndefined, VUndefined | VNull, VNull => true
  | VBool x, VBool y => Bool.eqb x y
  | VNum x, VNum y => numIgual x y
  | VStr x, VStr y => String.eqb x y
  | VOid x, VOid y => N.eqb x y
  | VArr l, VArr l' =>
      (fix todos (l l' : list value) : bool :=
         match l, l' with
         | [], [] => true
         | x :: r, y :: r' => valueEqb x y && todos r r'
         | _, _ => false
         end) l l'
  | VObj o, VObj o' =>
      (fix todos (o o' : list (string * value)) : bool :=
         match o, o' with
         | [], [] => true
         | (k, x) :: r, (k', y) :: r' =>
             String.eqb k k' && valueEqb x y && todos r r'
         | _, _ => false
         end) o o'
  | _, _ => false
  end.

(** A [$set] changes a document when some field does not hold the new
    value yet. *)
Definition cambia (cambios : object) (d : document) : bool :=
  existsb (fun kv : string * value => negb (valueEqb (prop d kv.1) kv.2)) cambios.

(** The fields of the driver's result objects that the handlers read. *)
Record WriteResult := {
  acknowledged : bool;
  matchedCount : Z;
  modifiedCount : Z;
  deletedCount : Z
}.

Definition resultado (matched modified deleted : Z) : WriteResult :=
  {| acknowledged := true; matchedCount := matched;
     modifiedCount := modified; deletedCount := deleted |}.

(** [updateOne(f, {$set: cambios})]: the first document that matches is
    rewritten, when the [$set] changes it; it then counts as modified. *)
Definition updateOne (f : filtro) (cambios : object) (col : list document)
  : list document * WriteResult :=
  match list_find (fun d => coincide f d = true) col with
  | Some (i, d) =>
      if cambia cambios d
      then (<[i := aplicaSet cambios d]> col, resultado 1 1 0)
      else (col, resultado 1 0 0)
  | None => (col, resultado 0 0 0)
  end.

(** [deleteOne(f)]: the first document that matches is removed. *)
Definition deleteOne (f : filtro) (col : list document)
  : list document * WriteResult :=
  match list_find (fun d => coincide f d = true) col with
  | Some (i, _) => (delete i col, resultado 0 0 1)
  | None => (col, resultado 0 0 0)
  end.

(** [insertOne(d)]: the driver gives the document an [_id] when it has
    none, and appends it. *)
Definition conId (id : N) (d : document) : document :=
  match prop d "_id" with
  | VUndefined | VNull => asigna d ("_id", VOid id)
  | _ => d
  end.

Definition insertOne (id : N) (d : document) (col : list document) : list document :=
  col ++ [conId id d].

End Mongo.

(** ** utils.js *)

Module Utils.
Import JS.

Definition camposPermitidos : list string :=
  ["codigo"; "nombre"; "precio"; "categoria"].

(** [Array.prototype.includes] on strings. *)
Definition includes (l : list string) (x : string) : bool :=
  existsb (String.eqb x) l.

Definition controlDeCampos (nuevoProducto : object) : list string :=
  List.filter (fun campo => negb (includes camposPermitidos campo))
              (keys nuevoProducto).

End Utils.

(** ** server.js *)

Module Server.
Import JS Mongo Utils.

(** What [res.status(s).json(b)] sends. *)
Record response := {
  status : Z;
  json : object
}.

Inductive consulta :=
| QFindOne (f : filtro)
| QFind (f : filtro)
| QInsertOne (d : document)
| QUpdateOne (f : filtro) (cambios : object)
| QDeleteOne (f : filtro).

(** What a handler does that can be observed from outside, in order. *)
Inductive evento :=
| EvConnect
| EvClose
| EvQuery (q : consulta)
| EvSend (r : response).

(** The store as a request finds it: the collection, the next [_id] the
    driver will generate, whether the server can be reached, whether
    collection calls reject, and whether writes are acknowledged. *)
Record mundo := {
  coleccion : list document;
  proximoId : N;
  disponible : bool;
  averiado : bool;
  reconoce : bool
}.

Definition conColeccion (col : list document) (w : mundo) : mundo :=
  {| coleccion := col; proximoId := proximoId w; disponible := disponible w;
     averiado := averiado w; reconoce := reconoce w |}.

Inductive salida (A : Type) :=
| Valor (a : A)
| Lanza.
Arguments Valor {A} a.
Arguments Lanza {A}.

(** An asynchronous computation of the server. *)
Definition M (A : Type) : Type := mundo -> salida A * mundo * list evento.

Definition ret {A} (a : A) : M A := fun w => (Valor a, w, []).

Definition bind {A B} (m : M A) (k : A -> M B) : M B :=
  fun w =>
    match m w with
    | (Valor a, w1, t1) => let '(r, w2, t2) := k a w1 in (r, w2, t1 ++ t2)
    | (Lanza, w1, t1) => (Lanza, w1, t1)
    end.

Definition lanza {A} : M A := fun w => (Lanza, w, []).

Notation "x <- m ;; k" := (bind m (fun x => k))
  (at level 100, m at next level, right associativity).

(** [try { cuerpo } catch (error) { captura } finally { final }] *)
Definition intenta (cuerpo captura final : M unit) : M unit :=
  fun w =>
    match cuerpo w with
    | (Valor _, w1, t1) => let '(r, w2, t2) := final w1 in (r, w2, t1 ++ t2)
    | (Lanza, w1, t1) =>
        let '(r, w2, t2) := captura w1 in
        let '(r', w3, t3) := final w2 in
        (match r with Valor _ => r' | Lanza => Lanza end, w3, t1 ++ t2 ++ t3)
    end.

(** [res.status(s).json(b)] *)
Definition envia (s : Z) (b : object) : M unit :=
  fun w => (Valor tt, w, [EvSend {| status := s; json := b |}]).

(** *** src/mongodb.js *)

(** [connectDB]: the client, or [null] when the connection fails. *)
Definition connectDB : M bool :=
  fun w => (Valor (disponible w), w, [EvConnect]).

Definition disconnectDB : M unit :=
  fun w => (Valor tt, w, [EvClose]).

(** *** The collection calls, as the handlers await them *)

Definition llamada {A} (q : consulta) (f : mundo -> A * mundo) : M A :=
  fun w =>
    if averiado w then (Lanza, w, [EvQuery q])
    else let '(a, w') := f w in (Valor a, w', [EvQuery q]).

Definition sinAcuse : WriteResult :=
  {| acknowledged := false; matchedCount := 0;
     modifiedCount := 0; deletedCount := 0 |}.

Definition acuse (w : mundo) (r : WriteResult) : WriteResult :=
  if reconoce w then r else sinAcuse.

Definition dbFindOne (f : filtro) : M (option document) :=
  llamada (QFindOne f) (fun w => (findOne f (coleccion w), w)).

Definition dbFind (f : filtro) : M (list document) :=
  llamada (QFind f) (fun w => (find f (coleccion w), w)).

(** [insertOne] adds the [_id] to the object it is given: the caller sees
    it afterwards, so the document as stored is returned with the result. *)
Definition dbInsertOne (d : document) : M (WriteResult * document) :=
  llamada (QInsertOne d) (fun w =>
    ((acuse w (resultado 0 0 0), conId (proximoId w) d),
     {| coleccion := insertOne (proximoId w) d (coleccion w);
        proximoId := N.succ (proximoId w); disponible := disponible w;
        averiado := averiado w; reconoce := reconoce w |})).

Definition dbUpdateOne (f : filtro) (cambios : object) : M WriteResult :=
  llamada (QUpdateOne f cambios) (fun w =>
    let '(col, r) := updateOne f cambios (coleccion w) in
    (acuse w r, conColeccion col w)).

Definition dbDeleteOne (f : filtro) : M WriteResult :=
  llamada (QDeleteOne f) (fun w =>
    let '(col, r) := deleteOne f (coleccion w) in
    (acuse w r, conColeccion col w)).

(** *** The bodies of the responses *)

Definition fallo (msg : string) : object :=
  [("success", VBool false); ("msg", VStr msg)].

Definition exito (msg : string) : object :=
  [("success", VBool true); ("msg", VStr msg)].

Definition exitoCon (r : value) (msg : string) : object :=
  [("response", r); ("success", VBool true); ("msg", VStr msg)].

Definition msgCampos (camposNoPermitidos : list string) : string :=
  "Error, se enviaron campos que no están en la base de datos: "
    +:+ join ", " camposNoPermitidos.

Definition documentos (l : list document) : value := VArr (map VObj l).

(** [!v || v === ''] *)
Definition falta (v : value) : bool :=
  negb (truthy v) || strictEq v (VStr "").

(** *** The routes *)

(** [app.get('/')] *)
Definition getRaiz : M unit :=
  envia 200 (exito "Página principal").

(** [app.get("/computacion/codigo/:codigo")] *)
Definition getCodigo (codigo : string) : M unit :=
  let codigoProducto := parseInt (trim codigo) in
  if isNaN codigoProducto then
    envia 400 (fallo "El código del producto no es válido, debe ser numérico")
  else
    intenta
      (client <- connectDB ;;
       if negb client then envia 500 (fallo "Error al conectarse a MongoDB")
       else
         producto <- dbFindOne ("codigo", Igual codigoProducto) ;;
         match producto with
         | Some p =>
             envia 200 (exitoCon (VObj p)
               ("Producto " +:+ numToString codigoProducto +:+ " encontrado con éxito"))
         | None =>
             envia 404 (fallo
               ("El producto con código " +:+ numToString codigoProducto +:+ " no existe"))
         end)
      (envia 500 (fallo "Error al obtener el producto de la base de datos"))
      disconnectDB.

(** [app.get("/computacion/nombre/:nombre")] *)
Definition getNombre (nombre : string) : M unit :=
  let productoQuery := trim nombre in
  match Regex.compila productoQuery with
  | None => lanza
  | Some productoNombre =>
      intenta
        (client <- connectDB ;;
         if negb client then envia 500 (fallo "Error al conectarse a MongoDB")
         else
           producto <- dbFind ("nombre", Expr productoNombre) ;;
           if (0 <? length producto)%nat then
             envia 200 (exitoCon (documentos producto) "Producto/s encontrado/s con éxito")
           else
             envia 404 (fallo "No se encontraron productos"))
        (envia 500 (fallo "Error al obtener el/los producto/s de la base de datos"))
        disconnectDB
  end.

(** [app.get("/computacion/precio/:precio")] *)
Definition getPrecio (precio : string) : M unit :=
  let productoPrecio := parseFloat (trim precio) in
  if negb (numTruthy productoPrecio) then
    envia 400 (fallo "El precio debe ser numérico")
  else
    intenta
      (client <- connectDB ;;
       if negb client then envia 500 (fallo "Error al conectarse a MongoDB")
       else
         producto <- dbFind ("precio", Gte productoPrecio) ;;
         if (0 <? length producto)%nat then
           envia 200 (exitoCon (documentos producto) "Producto encontrado con éxito")
         else
           envia 404 (fallo "Producto no encontrado"))
      (envia 500 (fallo "Error al obtener el producto de la base de datos"))
      disconnectDB.

(** [app.get("/computacion/categoria/:categoria")] *)
Definition getCategoria (categoria : string) : M unit :=
  let queryProducto := trim categoria in
  match Regex.compila ("^" +:+ queryProducto +:+ "$") with
  | None => lanza
  | Some categoriaProducto =>
      intenta
        (client <- connectDB ;;
         if negb client then envia 500 (fallo "Error al conectarse a MongoDB")
         else
           productos <- dbFind ("categoria", Expr categoriaProducto) ;;
           if (0 <? length productos)%nat then
             envia 200 [("respnse", documentos productos);
                        ("success", VBool true);
                        ("msg", VStr "Categoría encontrada con éxito")]
           else
             envia 404 (fallo "Categoría no encontrada"))
        (envia 500 (fallo "Error al obtener la categoría de la base de datos"))
        disconnectDB
  end.

(** [app.post("/computacion")] *)
Definition postComputacion (nuevoProducto : object) : M unit :=
  let codigoProducto := parseInt (ToString (prop nuevoProducto "codigo")) in
  let camposNoPermitidos := controlDeCampos nuevoProducto in
  if (0 <? length camposNoPermitidos)%nat then
    envia 400 (fallo (msgCampos camposNoPermitidos))
  else
    intenta
      (if strictEq (VObj nuevoProducto) VUndefined then
         envia 400 (fallo "Error en el formato de datos a crear")
       else if negb (numTruthy codigoProducto) || numLt codigoProducto (Fin 1 0) then
         envia 400 (fallo "Código de producto inválido")
       else if falta (prop nuevoProducto "nombre") then
         envia 400 (fallo "Le falta enviar el nombre del producto")
       else if falta (prop nuevoProducto "precio") then
         envia 400 (fallo "Le falta enviar el precio del producto")
       else if falta (prop nuevoProducto "categoria") then
         envia 400 (fallo "Le falta enviar la categoria del producto")
       else
         client <- connectDB ;;
         if negb client then envia 500 (fallo "Error al conectarse a MongoDB")
         else
           codigoExiste <- dbFindOne ("codigo", Igual codigoProducto) ;;
           match codigoExiste with
           | Some _ =>
               envia 400 (fallo
                 ("El código de producto " +:+ numToString codigoProducto +:+
                  ", ya existe. No puede haber otro nuevo producto con el mismo código"))
           | None =>
               response <- dbInsertOne nuevoProducto ;;
               if acknowledged response.1 then
                 envia 201 (exitoCon (VObj response.2) "Nuevo producto creado con éxito")
               else
                 envia 500 (fallo "No se pudo crear el nuevo producto")
           end)
      (envia 500 (fallo "Error al intentar agregar un nuevo producto"))
      disconnectDB.

(** [app.put("/computacion/:codigo")].  In the test of the result,
    [a === 1 & b === 1] is the bitwise conjunction of two booleans. *)
Definition putComputacion (codigo : string) (nuevosDatos : object) : M unit :=
  let codigoProducto := parseInt (trim codigo) in
  intenta
    (if negb (truthy (VObj nuevosDatos)) then
       envia 400 (fallo "Error en el formato de datos enviados")
     else if negb (numTruthy codigoProducto) then
       envia 400 (fallo "El código de producto es inválido")
     else
       let camposNoPermitidos := controlDeCampos nuevosDatos in
       if (0 <? length camposNoPermitidos)%nat then
         envia 400 (fallo (msgCampos camposNoPermitidos))
       else if falta (prop nuevosDatos "codigo") then
         envia 400 (fallo "Le falta enviar el código del producto para modificar")
       else if falta (prop nuevosDatos "nombre") then
         envia 400 (fallo "Le falta enviar el nombre del producto para modificar")
       else if falta (prop nuevosDatos "precio") then
         envia 400 (fallo "Le falta enviar el precio del producto a modificar")
       else if falta (prop nuevosDatos "categoria") then
         envia 400 (fallo "Le falta enviar la categoría del producto a modificar")
       else
         client <- connectDB ;;
         if negb client then envia 500 (fallo "Error al conectarse a MongoDB")
         else
           response <- dbUpdateOne ("codigo", Igual codigoProducto) nuevosDatos ;;
           if acknowledged response &&
              ((matchedCount response =? 1) && (modifiedCount response =? 1)) then
             envia 200 (exitoCon (VObj nuevosDatos) "Datos modificados con éxito")
           else
             envia 500 [("response", VBool false);
                        ("msg", VStr "No se pudo modificar el producto, intente nuevamente")])
    (envia 500 (fallo "Error al modificar el producto"))
    disconnectDB.

(** [app.patch("/computacion/:codigo")] *)
Definition patchComputacion (codigo : string) (body : object) : M unit :=
  let codigoProducto := parseInt (trim codigo) in
  let nuevoPrecio := parseFloat (ToString (prop body "precio")) in
  intenta
    (if negb (numTruthy codigoProducto) || numLe codigoProducto (Fin 0 0) then
       envia 400 (fallo "El código de producto es inválido")
     else if negb (numTruthy nuevoPrecio) || numLe nuevoPrecio (Fin 0 0) then
       envia 400 (fallo "Ingrese un precio válido para el producto")
     else
       client <- connectDB ;;
       if negb client then envia 500 (fallo "Error al conectarse a MongoDB")
       else
         response <- dbUpdateOne ("codigo", Igual codigoProducto)
                                 [("precio", VNum nuevoPrecio)] ;;
         if (matchedCount response =? 1) && (modifiedCount response =? 1) then
           envia 200 (exito "Precio modificado con éxito")
         else
           envia 404 (fallo
             ("El producto solicitado con código " +:+ numToString codigoProducto
              +:+ ", no existe")))
    (envia 500 (fallo "Error al modificar el precio del producto"))
    disconnectDB.

(** [app.delete("/computacion/:codigo")] *)
Definition deleteComputacion (codigo : string) : M unit :=
  let codigoProducto := parseInt (trim codigo) in
  intenta
    (if negb (numTruthy codigoProducto) then
       envia 400 (fallo "Error en el formato de datos")
     else
       client <- connectDB ;;
       if negb client then envia 500 (fallo "Error al conectarse a MongoDB")
       else
         response <- dbDeleteOne ("codigo", Igual codigoProducto) ;;
         if negb (acknowledged response) && (deletedCount response =? 0) then
           envia 404 (fallo "No se encontró ningun producto con el código seleccionado")
         else
           envia 200 (exito "Producto eliminado con éxito"))
    (envia 500 (fallo "Error al eliminar el producto"))
    disconnectDB.

(** The last [app.use]: no route matched. *)
Definition rutaInvalida : M unit :=
  envia 404 (fallo "Ruta inválida o inexistente, compruebe nuevamente").

(** *** Requests *)

(** A request as the router hands it over: the route with its decoded
    path parameter and the parsed body. *)
Inductive peticion :=
| GetRaiz
| GetCodigo (codigo : string)
| GetNombre (nombre : string)
| GetPrecio (precio : string)
| GetCategoria (categoria : string)
| Post (body : object)
| Put (codigo : string) (body : object)
| Patch (codigo : string) (body : object)
| Delete (codigo : string)
| Otra.

Definition manejador (p : peticion) : M unit :=
  match p with
  | GetRaiz => getRaiz
  | GetCodigo c => getCodigo c
  | GetNombre n => getNombre n
  | GetPrecio p => getPrecio p
  | GetCategoria c => getCategoria c
  | Post b => postComputacion b
  | Put c b => putComputacion c b
  | Patch c b => patchComputacion c b
  | Delete c => deleteComputacion c
  | Otra => rutaInvalida
  end.

(** Serving a request: the events it causes and the store it leaves. *)
Definition atiende (p : peticion) (w : mundo) : list evento * mundo :=
  let '(_, w', t) := manejador p w in (t, w').

(** The responses among the events. *)
Definition respuestas (t : list evento) : list response :=
  omap (fun e => match e with EvSend r => Some r | _ => None end) t.

(** The events that reach the store: connections and queries. *)
Definition tocaAlmacen (e : evento) : bool :=
  match e with
  | EvConnect | EvQuery _ => true
  | EvClose | EvSend _ => false
  end.

(** Several requests one after the other. *)
Fixpoint sirve (ps : list peticion) (w : mundo) : list (list evento) * mundo :=
  match ps with
  | [] => ([], w)
  | p :: r =>
      let '(t, w1) := atiende p w in
      let '(ts, w2) := sirve r w1 in
      (t :: ts, w2)
  end.

(** *** The validations

    Under the names the specification gives them: for each operation, the
    conjunction of the tests its handler makes before it connects. *)

Definition codigoValido (n : number) : bool :=
  numTruthy n && negb (numLt n (Fin 1 0)).

Definition validateCreate (body : object) : bool :=
  match controlDeCampos body with [] => true | _ => false end
  && codigoValido (parseInt (ToString (prop body "codigo")))
  && negb (falta (prop body "nombre"))
  && negb (falta (prop body "precio"))
  && negb (falta (prop body "categoria")).

Definition validateReplace (codigo : string) (body : object) : bool :=
  numTruthy (parseInt (trim codigo))
  && match controlDeCampos body with [] => true | _ => false end
  && negb (falta (prop body "codigo"))
  && negb (falta (prop body "nombre"))
  && negb (falta (prop body "precio"))
  && negb (falta (prop body "categoria")).

Definition positivo (n : number) : bool :=
  numTruthy n && negb (numLe n (Fin 0 0)).

Definition validatePricePatch (codigo : string) (body : object) : bool :=
  positivo (parseInt (trim codigo))
  && positivo (parseFloat (ToString (prop body "precio"))).

End Server.

(** ** Vocabulary of the statements *)

Module Enunciados.
Import JS Mongo Utils Server.

(** The uniform envelope [{success: bool, msg: string, response?: any}]. *)
Definition sobre (o : object) : bool :=
  match prop o "success", prop o "msg" with
  | VBool _, VStr _ =>
      forallb (includes ["success"; "msg"; "response"]) (keys o)
  | _, _ => false
  end.

Definition esDigito (c : ascii) : bool :=
  let n := Z.of_N (N_of_ascii c) in (48 <=? n) && (n <=? 57).

(** A non-empty run of decimal digits. *)
Fixpoint soloDigitos (s : string) : bool :=
  match s with
  | String c EmptyString => esDigito c
  | String c r => esDigito c && soloDigitos r
  | EmptyString => false
  end.

Definition sinDigitoInicial (s : string) : bool :=
  match s with
  | String c _ => negb (esDigito c)
  | EmptyString => true
  end.

(** The integer written by a run of decimal digits, after [acc]. *)
Fixpoint valorDecimal (s : string) (acc : Z) : Z :=
  match s with
  | String c r => valorDecimal r (10 * acc + (Z.of_N (N_of_ascii c) - 48))
  | EmptyString => acc
  end.

(** The text starts with [0x] or [0X]. *)
Definition empiezaHex (s : string) : bool :=
  match s with
  | String "0" (String x _) => Ascii.eqb x "x" || Ascii.eqb x "X"
  | _ => false
  end.

(** Equality of two strings without regard to the case of ASCII letters. *)
Fixpoint igualSinCaja (a b : string) : bool :=
  match a, b with
  | EmptyString, EmptyString => true
  | String x r, String y r' => Regex.igualCar x y && igualSinCaja r r'
  | _, _ => false
  end.

(** A rejection: status 400 with a message. *)
Definition rechazo (msg : string) : response :=
  {| status := 400; json := fallo msg |}.

(** The rejection that lists the fields that are not allowed. *)
Definition rechazoCampos (body : object) : response :=
  rechazo (msgCampos (controlDeCampos body)).

(** The answer of the search by price, from the documents found. *)
Definition respuestaPrecio (hallados : list document) : response :=
  if (0 <? length hallados)%nat
  then {| status := 200;
          json := exitoCon (documentos hallados) "Producto encontrado con éxito" |}
  else {| status := 404; json := fallo "Producto no encontrado" |}.

(** The answer of the search by code, from what [findOne] gave. *)
Definition respuestaCodigo (codigoProducto : number) (producto : option document)
  : response :=
  match producto with
  | Some p =>
      {| status := 200;
         json := exitoCon (VObj p)
                   ("Producto " +:+ numToString codigoProducto
                    +:+ " encontrado con éxito") |}
  | None =>
      {| status := 404;
         json := fallo ("El producto con código " +:+ numToString codigoProducto
                        +:+ " no existe") |}
  end.

(** The answer of the delete operation, from the result of [deleteOne]. *)
Definition respuestaDelete (res : WriteResult) : response :=
  if negb (acknowledged res) && (deletedCount res =? 0)
  then {| status := 404;
          json := fallo "No se encontró ningun producto con el código seleccionado" |}
  else {| status := 200; json := exito "Producto eliminado con éxito" |}.

(** The answer of the replace operation, from the result of [updateOne]. *)
Definition respuestaPut (nuevosDatos : object) (res : WriteResult) : response :=
  if acknowledged res && ((matchedCount res =? 1) && (modifiedCount res =? 1))
  then {| status := 200;
          json := exitoCon (VObj nuevosDatos) "Datos modificados con éxito" |}
  else {| status := 500;
          json := [("response", VBool false);
                   ("msg", VStr "No se pudo modificar el producto, intente nuevamente")] |}.

(** The documents of a collection with a given codigo. *)
Definition conCodigo (v : value) (col : list document) : list document :=
  List.filter (fun d => valueEqb (prop d "codigo") v) col.

End Enunciados.

(** ** Sample requests and stores *)

Module Ejemplos.
Import JS Mongo Server.

Definition producto (codigo : value) (nombre : string) (precio : Z)
    (categoria : string) : object :=
  [("codigo", codigo); ("nombre", VStr nombre);
   ("precio", VNum (Fin precio 0)); ("categoria", VStr categoria)].

Definition almacen (col : list document) : mundo :=
  {| coleccion := col; proximoId := N.of_nat (length col);
     disponible := true; averiado := false; reconoce := true |}.

Definition monitor : document :=
  producto (VNum (Fin 5 0)) "Monitor 24" 100 "Monitores LED"
    ++ [("_id", VOid 0)].

Definition ratonTexto : object :=
  producto (VStr "10") "Mouse" 5 "Perifericos".

Definition raton : object :=
  producto (VNum (Fin 10 0)) "Mouse" 5 "Perifericos".

Definition conColor : object :=
  ("color", VStr "rojo") :: raton.

End Ejemplos.

(** ** Vocabulary of the properties of the routes *)

Module Rutas.
Import JS Mongo Utils Server.

(** The routes that only read the collection, or do not use it. *)
Definition soloLee (p : peticion) : bool :=
  match p with
  | Post _ | Put _ _ | Patch _ _ | Delete _ => false
  | _ => true
  end.

(** The queries that write. *)
Definition escribe (e : evento) : bool :=
  match e with
  | EvQuery (QInsertOne _) | EvQuery (QUpdateOne _ _) | EvQuery (QDeleteOne _) => true
  | _ => false
  end.

Definition esConsulta (e : evento) : bool :=
  match e with EvQuery _ => true | _ => false end.

(** The pattern that a search route builds from its parameter, if any, is
    accepted by the constructor. *)
Definition patronValido (p : peticion) : bool :=
  match p with
  | GetNombre nombre =>
      match Regex.compila (trim nombre) with Some _ => true | None => false end
  | GetCategoria categoria =>
      match Regex.compila ("^" +:+ trim categoria +:+ "$") with
      | Some _ => true
      | None => false
      end
  | _ => true
  end.

(** What lies between the first and the last event. *)
Definition medio (t : list evento) : list evento := removelast (tl t).

(** No two documents answer to the same code. *)
Definition unicos (col : list document) : Prop :=
  forall (n : number) (i j : nat) (d e : document),
    col !! i = Some d -> col !! j = Some e ->
    coincide ("codigo", Igual n) d = true ->
    coincide ("codigo", Igual n) e = true ->
    i = j.

End Rutas.

(** ** What a pattern matches

    The relation that the matcher of [Regex] decides, and the patterns
    that the search routes build from a parameter without pattern
    characters. *)

Module Patrones.
Import Regex.

Definition vacia (s : string) : bool :=
  match s with EmptyString => true | _ => false end.

(** [casa ini fin r s]: the pattern [r] matches exactly the piece [s] of
    the subject, where [ini] tells whether the piece starts the subject
    and [fin] whether it ends it. *)
Inductive casa : bool -> bool -> re -> string -> Prop :=
| casa_vacio ini fin : casa ini fin Vacio ""
| casa_car ini fin c x :
    igualCar c x = true -> casa ini fin (Car c) (String x "")
| casa_punto ini fin x :
    Ascii.eqb x "010" || Ascii.eqb x "013" = false ->
    casa ini fin Punto (String x "")
| casa_todo ini fin x : casa ini fin Todo (String x "")
| casa_bol fin : casa true fin Bol ""
| casa_eol ini : casa ini true Eol ""
| casa_sec ini fin a b s1 s2 :
    casa ini (fin && vacia s2) a s1 ->
    casa (ini && vacia s1) fin b s2 ->
    casa ini fin (Sec a b) (s1 +:+ s2)
| casa_alt_izq ini fin a b s : casa ini fin a s -> casa ini fin (Alt a b) s
| casa_alt_der ini fin a b s : casa ini fin b s -> casa ini fin (Alt a b) s
| casa_rep_nada ini fin a : casa ini fin (Rep a) ""
| casa_rep_mas ini fin a x s1 s2 :
    casa ini (fin && vacia s2) a (String x s1) ->
    casa false fin (Rep a) s2 ->
    casa ini fin (Rep a) (String x s1 +:+ s2).

(** The pattern that the characters of [q] write one after the other,
    followed by [k]. *)
Fixpoint literal (q : string) (k : re) : re :=
  match q with
  | EmptyString => k
  | String c r => Sec (Car c) (literal r k)
  end.

(** A text without pattern characters. *)
Fixpoint sinPatron (q : string) : bool :=
  match q with
  | EmptyString => true
  | String c r => negb (esSintactico c) && sinPatron r
  end.

(** [q] starts [s], without regard to the case of ASCII letters. *)
Fixpoint empiezaSinCaja (q s : string) : bool :=
  match q, s with
  | EmptyString, _ => true
  | String x r, String y r' => igualCar x y && empiezaSinCaja r r'
  | _, EmptyString => false
  end.

(** [q] occurs in [s], without regard to the case of ASCII letters. *)
Fixpoint contieneSinCaja (q s : string) : bool :=
  empiezaSinCaja q s ||
  match s with
  | EmptyString => false
  | String _ r => contieneSinCaja q r
  end.

(** The text does not start with a quantifier. *)
Definition sinCuantificador (k : string) : bool :=
  match k with
  | String c _ => negb (Ascii.eqb c "*" || Ascii.eqb c "+" || Ascii.eqb c "?")
  | EmptyString => true
  end.

(** A field holds a text that satisfies [p], or an array with such a
    text. *)
Definition textoCumple (p : string -> bool) (v : JS.value) : bool :=
  match v with
  | JS.VStr s => p s
  | JS.VArr l =>
      existsb (fun x => match x with JS.VStr s => p s | _ => false end) l
  | _ => false
  end.

End Patrones.

(** ** The route that lists the collection *)

Module Listado.
Import JS Mongo Server.

(** *** [sort({ codigo: -1 })]

    The order of the store on values: first by kind (null and missing
    fields, numbers, strings, objects, arrays, ObjectIds, booleans), then
    within the kind. *)
Definition rango (v : value) : nat :=
  match v with
  | VUndefined | VNull => 1
  | VNum _ => 2
  | VStr _ => 3
  | VObj _ => 4
  | VArr _ => 5
  | VOid _ => 7
  | VBool _ => 8
  end.

(** Numbers in the order of the store: [NaN] below every other number. *)
Definition cmpNum (a b : number) : comparison :=
  match a, b with
  | NaN, NaN => Eq
  | NaN, _ => Lt
  | _, NaN => Gt
  | Inf na, Inf nb =>
      if na then (if nb then Eq else Lt) else (if nb then Gt else Eq)
  | Inf na, Fin _ _ => if na then Lt else Gt
  | Fin _ _, Inf nb => if nb then Gt else Lt
  | Fin m1 e1, Fin m2 e2 => cmpFin m1 e1 m2 e2
  end.

Definition luego (c d : comparison) : comparison :=
  match c with Eq => d | _ => c end.

(** Objects are compared field by field (kind of the value, name, value),
    arrays element by element; the shorter one is the smaller. *)
Fixpoint cmpValor (a b : value) {struct a} : comparison :=
  luego (Nat.compare (rango a) (rango b))
    match a, b with
    | VBool x, VBool y => Bool.compare x y
    | VNum x, VNum y => cmpNum x y
    | VStr s, VStr t => String.compare s t
    | VOid x, VOid y => N.compare x y
    | VArr l, VArr l' =>
        (fix elementos (l l' : list value) {struct l} : comparison :=
           match l, l' with
           | [], [] => Eq
           | [], _ :: _ => Lt
           | _ :: _, [] => Gt
           | x :: r, y :: r' => luego (cmpValor x y) (elementos r r')
           end) l l'
    | VObj o, VObj o' =>
        (fix campos (o o' : list (string * value)) {struct o} : comparison :=
           match o, o' with
           | [], [] => Eq
           | [], _ :: _ => Lt
           | _ :: _, [] => Gt
           | (k, x) :: r, (k', y) :: r' =>
               luego (Nat.compare (rango x) (rango y))
                 (luego (String.compare k k')
                    (luego (cmpValor x y) (campos r r')))
           end) o o'
    | _, _ => Eq
    end.

(** The largest element of a non-empty array. *)
Definition mayor (x : value) (l : list value) : value :=
  fold_left (fun m y => match cmpValor m y with Lt => y | _ => m end) l x.

(** The key of a document in a descending sort: the field, or for an array
    its largest element; an empty array comes below everything. *)
Definition claveDesc (campo : string) (d : document) : option value :=
  match prop d campo with
  | VArr [] => None
  | VArr (x :: l) => Some (mayor x l)
  | v => Some v
  end.

Definition cmpClave (a b : option value) : comparison :=
  match a, b with
  | None, None => Eq
  | None, Some _ => Lt
  | Some _, None => Gt
  | Some x, Some y => cmpValor x y
  end.

(** A document goes before the first one whose key is not larger. *)
Fixpoint inserta (campo : string) (d : document) (l : list document)
  : list document :=
  match l with
  | [] => [d]
  | e :: r =>
      match cmpClave (claveDesc campo d) (claveDesc campo e) with
      | Lt => e :: inserta campo d r
      | _ => d :: l
      end
  end.

(** [find().sort({ campo: -1 }).toArray()]: documents with equal keys stay
    in the order of the collection. *)
Definition sortDesc (campo : string) (col : list document) : list document :=
  fold_right (inserta campo) [] col.

(** *** The handler *)

(** What the handler does that can be observed: what every handler does,
    and the sorted query. *)
Inductive eventoListado :=
| Comun (e : evento)
| EvFindSort (campo : string) (sentido : Z).

Definition ML (A : Type) : Type :=
  mundo -> salida A * mundo * list eventoListado.

Definition sube {A} (m : M A) : ML A :=
  fun w => let '(r, w1, t) := m w in (r, w1, map Comun t).

Definition bindL {A B} (m : ML A) (k : A -> ML B) : ML B :=
  fun w =>
    match m w with
    | (Valor a, w1, t1) => let '(r, w2, t2) := k a w1 in (r, w2, t1 ++ t2)
    | (Lanza, w1, t1) => (Lanza, w1, t1)
    end.

(** [try { cuerpo } catch (error) { captura } finally { final }] *)
Definition intentaL (cuerpo captura final : ML unit) : ML unit :=
  fun w =>
    match cuerpo w with
    | (Valor _, w1, t1) => let '(r, w2, t2) := final w1 in (r, w2, t1 ++ t2)
    | (Lanza, w1, t1) =>
        let '(r, w2, t2) := captura w1 in
        let '(r', w3, t3) := final w2 in
        (match r with Valor _ => r' | Lanza => Lanza end, w3, t1 ++ t2 ++ t3)
    end.

Definition dbFindSort (campo : string) : ML (list document) :=
  fun w =>
    if averiado w then (Lanza, w, [EvFindSort campo (-1)])
    else (Valor (sortDesc campo (coleccion w)), w, [EvFindSort campo (-1)]).

(** [app.get("/computacion")] *)
Definition getComputacion : ML unit :=
  intentaL
    (bindL (sube connectDB) (fun client =>
       if negb client then sube (envia 500 (fallo "Error al conectarse a MongoDB"))
       else
         bindL (dbFindSort "codigo") (fun computacion =>
           sube (envia 200 (exitoCon (documentos computacion) "Productos obtenidos")))))
    (sube (envia 500 (fallo "Error al obtener los productos de la base de datos")))
    (sube disconnectDB).

Definition respuestasL (t : list eventoListado) : list response :=
  flat_map (fun e => match e with Comun (EvSend r) => [r] | _ => [] end) t.

(** *** What the answer is expected to satisfy *)

(** The codigo of [d] is a number not smaller than the one of [e]. *)
Definition desciende (d e : document) : Prop :=
  exists x y, prop d "codigo" = VNum x /\ prop e "codigo" = VNum y /\
              numLe y x = true.

Definition desciendeEstricto (d e : document) : Prop :=
  exists x y, prop d "codigo" = VNum x /\ prop e "codigo" = VNum y /\
              numLt y x = true.

(** Every codigo is a number. *)
Definition codigosNumericos (col : list document) : Prop :=
  forall d, In d col ->
    exists x, prop d "codigo" = VNum x /\ isNaN x = false.

End Listado.

Import JS Mongo Utils Server Enunciados.
Import Rutas.

(** ** Proof steps shared by the properties of the handlers *)

Ltac abre :=
  unfold atiende, manejador, getCodigo, getPrecio, postComputacion,
    putComputacion, patchComputacion, deleteComputacion, intenta, bind,
    connectDB, disconnectDB, dbFindOne, dbFind, dbInsertOne, dbUpdateOne,
    dbDeleteOne, llamada, envia;
  cbv beta iota.

Ltac avanza H := rewrite H; cbn [negb orb andb]; cbv beta iota.

Ltac rechaza := eexists; unfold rechazo; reflexivity.

(** Case analysis on every test a handler makes, one after the other. *)
Ltac ramifica :=
  repeat (cbv beta iota;
          cbn [disponible averiado reconoce coleccion proximoId negb fst snd
               acknowledged matchedCount modifiedCount deletedCount
               sinAcuse resultado andb orb];
          match goal with
          | |- context [if ?b then _ else _] => destruct b
          | |- context [match ?x with Some _ => _ | None => _ end] => destruct x
          | |- context [updateOne ?f ?c ?l] =>
              destruct (updateOne f c l) as [? [? ? ? ?]]
          | |- context [deleteOne ?f ?l] =>
              destruct (deleteOne f l) as [? [? ? ? ?]]
          end).

(** The routes, with their tests, unfolded. *)
Ltac rutas :=
  unfold atiende, manejador, getRaiz, getNombre, getCategoria, rutaInvalida,
    acuse; abre.

(** ** Properties *)

(** *** The allowed-fields check *)

Lemma includes_In (l : list string) (x : string) :
  includes l x = true <-> In x l.
Proof.
  unfold includes. rewrite existsb_exists. split.
  - intros (y & Hy & E). apply String.eqb_eq in E. now subst.
  - intros H. exists x. split; [assumption | apply String.eqb_refl].
Qed.

Lemma controlDeCampos_In (body : object) (k : string) :
  In k (controlDeCampos body) <-> In k (keys body) /\ ~ In k camposPermitidos.
Proof.
  unfold controlDeCampos. rewrite filter_In, negb_true_iff.
  rewrite <- (includes_In camposPermitidos k).
  destruct (includes camposPermitidos k); split; intros [H1 H2]; split;
    try assumption; try discriminate; try reflexivity.
  destruct H2; reflexivity.
Qed.

Lemma controlDeCampos_nil (body : object) :
  controlDeCampos body = [] <->
  forall k, In k (keys body) -> In k camposPermitidos.
Proof.
  split.
  - intros E k Hk. destruct (includes camposPermitidos k) eqn:Hi.
    + now apply includes_In.
    + assert (In k (controlDeCampos body)) as H.
      { apply controlDeCampos_In. split; [assumption |].
        rewrite <- (includes_In camposPermitidos k), Hi. discriminate. }
      rewrite E in H. destruct H.
  - intros H. destruct (controlDeCampos body) as [| k r] eqn:E; [reflexivity |].
    assert (In k (controlDeCampos body)) as Hk by (rewrite E; now left).
    apply controlDeCampos_In in Hk. destruct Hk as [Hk Hn].
    destruct (Hn (H k Hk)).
Qed.

Lemma controlDeCampos_length (body : object) :
  (exists k, In k (keys body) /\ ~ In k camposPermitidos) ->
  (0 <? length (controlDeCampos body))%nat = true.
Proof.
  intros (k & Hk). apply controlDeCampos_In in Hk.
  destruct (controlDeCampos body); [destruct Hk | reflexivity].
Qed.

Lemma post_campos (body : object) (w : mundo) :
  (0 <? length (controlDeCampos body))%nat = true ->
  atiende (Post body) w = ([EvSend (rechazoCampos body)], w).
Proof.
  intros H. unfold atiende, manejador, postComputacion. rewrite H. reflexivity.
Qed.

Lemma put_campos (codigo : string) (body : object) (w : mundo) :
  numTruthy (parseInt (trim codigo)) = true ->
  (0 <? length (controlDeCampos body))%nat = true ->
  atiende (Put codigo body) w = ([EvSend (rechazoCampos body); EvClose], w).
Proof.
  intros Hc H. unfold atiende, manejador, putComputacion, intenta.
  rewrite Hc, H. reflexivity.
Qed.




(** *** Delete *)

(** C2, on the code: deleting a code that no document has is acknowledged
    with [deletedCount] 0, and the handler answers 200, not 404. *)
Theorem delete_inexistente_responde_200 :
  findOne ("codigo", Igual (Fin 999 0)) [Ejemplos.monitor] = None /\
  atiende (Delete "999") (Ejemplos.almacen [Ejemplos.monitor])
  = ([EvConnect;
      EvQuery (QDeleteOne ("codigo", Igual (Fin 999 0)));
      EvSend {| status := 200; json := exito "Producto eliminado con éxito" |};
      EvClose],
     Ejemplos.almacen [Ejemplos.monitor]).
Proof. split; reflexivity. Qed.

(** *** Create *)

(** C3, on the code: the codigo sent as the text "10" is looked up as the
    number 10 and stored as the text; the second creation finds no number
    10 and inserts again. *)
Theorem post_codigo_texto_se_duplica :
  map (fun t => map status (respuestas t))
      (sirve [Post Ejemplos.ratonTexto; Post Ejemplos.ratonTexto]
             (Ejemplos.almacen [])).1
  = [[201]; [201]] /\
  coleccion (sirve [Post Ejemplos.ratonTexto; Post Ejemplos.ratonTexto]
                   (Ejemplos.almacen [])).2
  = [Ejemplos.ratonTexto ++ [("_id", VOid 0)];
     Ejemplos.ratonTexto ++ [("_id", VOid 1)]] /\
  length (conCodigo (VStr "10")
            (coleccion (sirve [Post Ejemplos.ratonTexto; Post Ejemplos.ratonTexto]
                              (Ejemplos.almacen [])).2)) = 2%nat.
Proof. repeat split. Qed.

(** *** Search by category *)

(** C4, on the code: the parameter is used as a pattern, so "Monitores.*"
    returns the document of category "Monitores LED". *)
Theorem categoria_patron_sin_escapar :
  igualSinCaja (trim "Monitores.*") "Monitores LED" = false /\
  respuestas (atiende (GetCategoria "Monitores.*")
                      (Ejemplos.almacen [Ejemplos.monitor])).1
  = [{| status := 200;
        json := [("respnse", documentos [Ejemplos.monitor]);
                 ("success", VBool true);
                 ("msg", VStr "Categoría encontrada con éxito")] |}].
Proof. split; reflexivity. Qed.

Example categoria_literal :
  map status (respuestas (atiende (GetCategoria "Monitores")
                            (Ejemplos.almacen [Ejemplos.monitor])).1) = [404] /\
  map status (respuestas (atiende (GetCategoria " monitores led ")
                            (Ejemplos.almacen [Ejemplos.monitor])).1) = [200].
Proof. split; reflexivity. Qed.

(** *** The envelope *)

(** C5, on the code: the success of the search by category carries its
    data under [respnse], and the failure of the replace operation has no
    [success] field. *)
Theorem respuestas_fuera_del_sobre :
  (respuestas (atiende (GetCategoria "monitores led")
                       (Ejemplos.almacen [Ejemplos.monitor])).1
   = [{| status := 200;
         json := [("respnse", documentos [Ejemplos.monitor]);
                  ("success", VBool true);
                  ("msg", VStr "Categoría encontrada con éxito")] |}] /\
   sobre [("respnse", documentos [Ejemplos.monitor]);
          ("success", VBool true);
          ("msg", VStr "Categoría encontrada con éxito")] = false) /\
  (respuestas (atiende (Put "7" Ejemplos.raton)
                       (Ejemplos.almacen [Ejemplos.monitor])).1
   = [{| status := 500;
         json := [("response", VBool false);
                  ("msg", VStr "No se pudo modificar el producto, intente nuevamente")] |}] /\
   sobre [("response", VBool false);
          ("msg", VStr "No se pudo modificar el producto, intente nuevamente")] = false).
Proof. repeat split. Qed.

(** *** Price patch *)

Lemma prop_asigna_ne (d : document) (k k' : string) (v : value) :
  k <> k' -> prop (asigna d (k, v)) k' = prop d k'.
Proof.
  intros Hne. unfold asigna. cbn [fst snd].
  destruct (existsb (String.eqb k) (keys d)).
  - induction d as [| [k0 v0] d IH]; [reflexivity |].
    cbn [map fst snd prop]. destruct (String.eqb_spec k0 k) as [-> | Hk].
    + cbn [prop fst]. destruct (String.eqb_spec k k'); [contradiction | exact IH].
    + cbn [prop]. now rewrite IH.
  - induction d as [| [k0 v0] d IH].
    + cbn. destruct (String.eqb_spec k k'); [contradiction | reflexivity].
    + cbn [app prop]. now rewrite IH.
Qed.

Lemma prop_asigna_eq (d : document) (k : string) (v : value) :
  prop (asigna d (k, v)) k = v.
Proof.
  unfold asigna. cbn [fst snd].
  destruct (existsb (String.eqb k) (keys d)) eqn:E.
  - induction d as [| [k0 v0] d IH]; [discriminate |].
    cbn [map fst snd prop]. cbn [keys map fst existsb] in E.
    rewrite String.eqb_sym in E.
    destruct (String.eqb k0 k) eqn:Hk.
    + cbn [prop fst]. now rewrite Hk.
    + cbn [prop]. rewrite Hk. apply IH. exact E.
  - induction d as [| [k0 v0] d IH].
    + cbn. now rewrite String.eqb_refl.
    + cbn [keys map fst existsb] in E. rewrite String.eqb_sym in E.
      apply orb_false_iff in E. destruct E as [Hk E].
      cbn [app prop]. rewrite Hk. now apply IH.
Qed.

Lemma list_find_find (f : document -> bool) (col : list document) :
  List.find f col = snd <$> list_find (fun d => f d = true) col.
Proof.
  induction col as [| d col IH]; [reflexivity |].
  cbn [List.find list_find]. destruct (f d) eqn:E.
  - rewrite decide_True by reflexivity. reflexivity.
  - rewrite decide_False by discriminate. rewrite IH.
    destruct (list_find _ col) as [[i e] |]; reflexivity.
Qed.

(** The requests that pass the validation of the price patch: what the
    handler does next depends on the store alone. *)
Section PatchValidado.

Variables (codigo : string) (body : object) (w : mundo).

Hypothesis Hvalido : validatePricePatch codigo body = true.

Let codigoProducto := parseInt (trim codigo).
Let nuevoPrecio := parseFloat (ToString (prop body "precio")).

Lemma patch_pruebas :
  numTruthy codigoProducto = true /\
  numLe codigoProducto (Fin 0 0) = false /\
  numTruthy nuevoPrecio = true /\
  numLe nuevoPrecio (Fin 0 0) = false.
Proof using Hvalido.
  pose proof Hvalido as Hv. unfold validatePricePatch, positivo in Hv.
  apply andb_true_iff in Hv. destruct Hv as [Hc Hp].
  apply andb_true_iff in Hc. destruct Hc as [Hc1 Hc2].
  apply andb_true_iff in Hp. destruct Hp as [Hp1 Hp2].
  apply negb_true_iff in Hc2, Hp2. repeat split; assumption.
Qed.

Lemma patch_validado :
  disponible w = true ->
  averiado w = false ->
  atiende (Patch codigo body) w
  = let f := ("codigo", Igual codigoProducto) in
    let cambios := [("precio", VNum nuevoPrecio)] in
    let res := acuse w (updateOne f cambios (coleccion w)).2 in
    ([EvConnect; EvQuery (QUpdateOne f cambios);
      EvSend (if (matchedCount res =? 1) && (modifiedCount res =? 1)
              then {| status := 200; json := exito "Precio modificado con éxito" |}
              else {| status := 404;
                      json := fallo ("El producto solicitado con código "
                                +:+ numToString codigoProducto
                                +:+ ", no existe") |});
      EvClose],
     conColeccion (updateOne f cambios (coleccion w)).1 w).
Proof using Hvalido.
  intros Hd Ha. destruct patch_pruebas as (Hc1 & Hc2 & Hp1 & Hp2).
  subst codigoProducto nuevoPrecio. abre.
  avanza Hc1. avanza Hc2. avanza Hp1. avanza Hp2. avanza Hd. avanza Ha.
  destruct (updateOne _ _ (coleccion w)) as [col r]. cbn [fst snd].
  destruct ((matchedCount (acuse w r) =? 1) && (modifiedCount (acuse w r) =? 1));
    reflexivity.
Qed.

Lemma patch_sin_conexion :
  disponible w = false ->
  atiende (Patch codigo body) w
  = ([EvConnect;
      EvSend {| status := 500; json := fallo "Error al conectarse a MongoDB" |};
      EvClose], w).
Proof using Hvalido.
  intros Hd. destruct patch_pruebas as (Hc1 & Hc2 & Hp1 & Hp2).
  subst codigoProducto nuevoPrecio. abre.
  avanza Hc1. avanza Hc2. avanza Hp1. avanza Hp2. avanza Hd. reflexivity.
Qed.

Lemma patch_averiado :
  disponible w = true ->
  averiado w = true ->
  atiende (Patch codigo body) w
  = ([EvConnect;
      EvQuery (QUpdateOne ("codigo", Igual codigoProducto)
                 [("precio", VNum nuevoPrecio)]);
      EvSend {| status := 500;
                json := fallo "Error al modificar el precio del producto" |};
      EvClose], w).
Proof using Hvalido.
  intros Hd Ha. destruct patch_pruebas as (Hc1 & Hc2 & Hp1 & Hp2).
  subst codigoProducto nuevoPrecio. abre.
  avanza Hc1. avanza Hc2. avanza Hp1. avanza Hp2. avanza Hd. avanza Ha.
  reflexivity.
Qed.

End PatchValidado.

Lemma patch_invalido (codigo : string) (body : object) (w : mundo) :
  validatePricePatch codigo body = false ->
  exists msg, atiende (Patch codigo body) w = ([EvSend (rechazo msg); EvClose], w).
Proof.
  unfold validatePricePatch, positivo. intros Hv. abre.
  destruct (numTruthy (parseInt (trim codigo))); cbn [negb orb andb] in *;
    [| rechaza].
  destruct (numLe (parseInt (trim codigo)) (Fin 0 0)); cbn [negb orb andb] in *;
    [rechaza |].
  destruct (numTruthy (parseFloat _)); cbn [negb orb andb] in *; [| rechaza].
  destruct (numLe (parseFloat _) (Fin 0 0)); cbn [negb orb andb] in *;
    [rechaza | discriminate].
Qed.

(** C6: when the price patch answers 200, one document of the collection,
    the first whose codigo matches, has been rewritten with the new precio;
    its other fields are as before and so are all the other documents. *)
Theorem patch_solo_cambia_precio (codigo : string) (body : object)
    (w w' : mundo) (t : list evento) (r : response) :
  atiende (Patch codigo body) w = (t, w') ->
  In r (respuestas t) ->
  status r = 200 ->
  exists (i : nat) (d d' : document),
    coleccion w !! i = Some d /\
    coincide ("codigo", Igual (parseInt (trim codigo))) d = true /\
    (forall j e, coleccion w !! j = Some e -> (j < i)%nat ->
                 coincide ("codigo", Igual (parseInt (trim codigo))) e <> true) /\
    d' = asigna d ("precio", VNum (parseFloat (ToString (prop body "precio")))) /\
    coleccion w' = <[i := d']> (coleccion w) /\
    prop d' "precio" = VNum (parseFloat (ToString (prop body "precio"))) /\
    prop d' "codigo" = prop d "codigo" /\
    prop d' "nombre" = prop d "nombre" /\
    prop d' "categoria" = prop d "categoria" /\
    (forall k, k <> "precio" -> prop d' k = prop d k) /\
    (forall j, j <> i -> coleccion w' !! j = coleccion w !! j) /\
    length (coleccion w') = length (coleccion w).
Proof.
  intros Hat Hin Hst.
  destruct (validatePricePatch codigo body) eqn:Hv.
  2:{ destruct (patch_invalido codigo body w Hv) as (msg & E).
      rewrite E in Hat. injection Hat as <- <-.
      destruct Hin as [<- | []]. discriminate. }
  destruct (disponible w) eqn:Hd.
  2:{ rewrite (patch_sin_conexion _ _ _ Hv Hd) in Hat. injection Hat as <- <-.
      destruct Hin as [<- | []]. discriminate. }
  destruct (averiado w) eqn:Ha.
  1:{ rewrite (patch_averiado _ _ _ Hv Hd Ha) in Hat. injection Hat as <- <-.
      destruct Hin as [<- | []]. discriminate. }
  rewrite (patch_validado _ _ _ Hv Hd Ha) in Hat. cbv zeta in Hat.
  injection Hat as <- <-. destruct Hin as [<- | []].
  unfold updateOne, acuse in *.
  destruct (list_find _ (coleccion w)) as [[i d] |] eqn:Hf.
  2:{ destruct (reconoce w); discriminate. }
  apply list_find_Some in Hf. destruct Hf as (Hi & Hm & Hprimero).
  destruct (cambia _ d) eqn:Hc.
  2:{ destruct (reconoce w); discriminate. }
  exists i, d, (asigna d ("precio", VNum (parseFloat (ToString (prop body "precio"))))).
  repeat split; try assumption.
  - apply prop_asigna_eq.
  - now apply prop_asigna_ne.
  - now apply prop_asigna_ne.
  - now apply prop_asigna_ne.
  - intros k Hk. apply prop_asigna_ne. congruence.
  - intros j Hj. cbn. apply list_lookup_insert_ne. congruence.
  - cbn. apply length_insert.
Qed.

Lemma patch_solo_cambia_precio_testigo :
  exists (i : nat) (d d' : document),
    [Ejemplos.monitor] !! i = Some d /\
    coincide ("codigo", Igual (Fin 5 0)) d = true /\
    (forall j e, [Ejemplos.monitor] !! j = Some e -> (j < i)%nat ->
                 coincide ("codigo", Igual (Fin 5 0)) e <> true) /\
    d' = asigna d ("precio", VNum (Fin 250 0)) /\
    coleccion (atiende (Patch "5" [("precio", VNum (Fin 250 0))])
                       (Ejemplos.almacen [Ejemplos.monitor])).2
    = <[i := d']> [Ejemplos.monitor] /\
    prop d' "precio" = VNum (Fin 250 0) /\
    prop d' "codigo" = prop d "codigo" /\
    prop d' "nombre" = prop d "nombre" /\
    prop d' "categoria" = prop d "categoria" /\
    (forall k, k <> "precio" -> prop d' k = prop d k) /\
    (forall j, j <> i ->
       coleccion (atiende (Patch "5" [("precio", VNum (Fin 250 0))])
                          (Ejemplos.almacen [Ejemplos.monitor])).2 !! j
       = [Ejemplos.monitor] !! j) /\
    length (coleccion (atiende (Patch "5" [("precio", VNum (Fin 250 0))])
                               (Ejemplos.almacen [Ejemplos.monitor])).2)
    = length [Ejemplos.monitor].
Proof.
  apply (patch_solo_cambia_precio "5" [("precio", VNum (Fin 250 0))]
           (Ejemplos.almacen [Ejemplos.monitor])
           (atiende (Patch "5" [("precio", VNum (Fin 250 0))])
                    (Ejemplos.almacen [Ejemplos.monitor])).2
           (atiende (Patch "5" [("precio", VNum (Fin 250 0))])
                    (Ejemplos.almacen [Ejemplos.monitor])).1
           {| status := 200; json := exito "Precio modificado con éxito" |}).
  - reflexivity.
  - left. reflexivity.
  - reflexivity.
Defined.




(** *** Search by price *)

Lemma find_In (f : filtro) (col : list document) (d : document) :
  In d (find f col) <-> In d col /\ coincide f d = true.
Proof. unfold find. apply filter_In. Qed.




(** The parameter "0" is a number, and it is rejected as if it were not. *)
Example precio_cero_rechazado :
  parseFloat (trim "0") = Fin 0 0 /\
  atiende (GetPrecio "0") (Ejemplos.almacen [Ejemplos.monitor])
  = ([EvSend (rechazo "El precio debe ser numérico")],
     Ejemplos.almacen [Ejemplos.monitor]).
Proof. split; reflexivity. Qed.

(** *** Validation comes first *)

Lemma post_invalido (body : object) (w : mundo) :
  validateCreate body = false ->
  exists msg,
    atiende (Post body) w = ([EvSend (rechazo msg)], w) \/
    atiende (Post body) w = ([EvSend (rechazo msg); EvClose], w).
Proof.
  unfold validateCreate, codigoValido. intros Hv. abre.
  destruct (controlDeCampos body) as [| k r]; cbn [length Nat.ltb Nat.leb];
    [| eexists; left; reflexivity].
  cbn [strictEq].
  destruct (numTruthy (parseInt _)); cbn [negb orb andb] in *;
    [| eexists; right; reflexivity].
  destruct (numLt (parseInt _) (Fin 1 0)); cbn [negb orb andb] in *;
    [eexists; right; reflexivity |].
  destruct (falta (prop body "nombre")); cbn [negb orb andb] in *;
    [eexists; right; reflexivity |].
  destruct (falta (prop body "precio")); cbn [negb orb andb] in *;
    [eexists; right; reflexivity |].
  destruct (falta (prop body "categoria")); cbn [negb orb andb] in *;
    [eexists; right; reflexivity | discriminate].
Qed.

Lemma put_invalido (codigo : string) (body : object) (w : mundo) :
  validateReplace codigo body = false ->
  exists msg, atiende (Put codigo body) w = ([EvSend (rechazo msg); EvClose], w).
Proof.
  unfold validateReplace. intros Hv. abre. cbn [truthy negb].
  destruct (numTruthy (parseInt _)); cbn [negb orb andb] in *; [| rechaza].
  destruct (controlDeCampos body) as [| k r]; cbn [length Nat.ltb Nat.leb] in *;
    [| rechaza].
  destruct (falta (prop body "codigo")); cbn [negb orb andb] in *; [rechaza |].
  destruct (falta (prop body "nombre")); cbn [negb orb andb] in *; [rechaza |].
  destruct (falta (prop body "precio")); cbn [negb orb andb] in *; [rechaza |].
  destruct (falta (prop body "categoria")); cbn [negb orb andb] in *;
    [rechaza | discriminate].
Qed.



(** The validations are the only gate: a request that passes them reaches
    the store. *)
Lemma validos_llegan_al_almacen (p : peticion) (w : mundo) :
  match p with
  | Post body => validateCreate body = true
  | Put codigo body => validateReplace codigo body = true
  | Patch codigo body => validatePricePatch codigo body = true
  | _ => False
  end ->
  exists resto, (atiende p w).1 = EvConnect :: resto.
Proof.
  destruct p as [| | | | | body | codigo body | codigo body | |];
    try contradiction; intros Hv.
  - unfold validateCreate, codigoValido in Hv.
    repeat match goal with
           | H : _ && _ = true |- _ => apply andb_true_iff in H; destruct H
           end.
    repeat match goal with H : negb _ = true |- _ => apply negb_true_iff in H end.
    destruct w as [col id d a r]. abre.
    destruct (controlDeCampos body); [| discriminate].
    cbn [length Nat.ltb Nat.leb strictEq].
    repeat match goal with H : _ = _ |- _ => avanza H end.
    cbn [disponible averiado]. destruct d; cbn [negb]; [| eexists; reflexivity].
    destruct a; [eexists; reflexivity |].
    destruct (findOne _ _); [eexists; reflexivity |].
    cbn [averiado]. unfold acuse. cbn [reconoce].
    destruct r; eexists; reflexivity.
  - unfold validateReplace in Hv.
    repeat match goal with
           | H : _ && _ = true |- _ => apply andb_true_iff in H; destruct H
           end.
    repeat match goal with H : negb _ = true |- _ => apply negb_true_iff in H end.
    destruct w as [col id d a r]. abre. cbn [truthy negb].
    destruct (controlDeCampos body); [| discriminate].
    cbn [length Nat.ltb Nat.leb].
    repeat match goal with H : _ = _ |- _ => avanza H end.
    cbn [disponible averiado]. destruct d; cbn [negb]; [| eexists; reflexivity].
    destruct a; [eexists; reflexivity |].
    destruct (updateOne _ _ _) as [col' res]. unfold acuse. cbn [reconoce].
    destruct res as [ack m1 m2 dc].
    destruct r, ack, (m1 =? 1) eqn:E1, (m2 =? 1) eqn:E2;
      cbn [averiado acknowledged matchedCount modifiedCount sinAcuse andb];
      rewrite ?E1, ?E2; eexists; reflexivity.
  - destruct (disponible w) eqn:Hd.
    + destruct (averiado w) eqn:Ha.
      * rewrite (patch_averiado _ _ _ Hv Hd Ha). eexists; reflexivity.
      * rewrite (patch_validado _ _ _ Hv Hd Ha). eexists; reflexivity.
    + rewrite (patch_sin_conexion _ _ _ Hv Hd). eexists; reflexivity.
Qed.

(** *** The code of the path *)

Lemma getCodigo_numerico (codigo : string) (w : mundo) :
  isNaN (parseInt (trim codigo)) = false ->
  disponible w = true ->
  averiado w = false ->
  atiende (GetCodigo codigo) w
  = ([EvConnect;
      EvQuery (QFindOne ("codigo", Igual (parseInt (trim codigo))));
      EvSend (respuestaCodigo (parseInt (trim codigo))
                (findOne ("codigo", Igual (parseInt (trim codigo))) (coleccion w)));
      EvClose], w).
Proof.
  intros Hn Hd Ha. abre. avanza Hn. avanza Hd. avanza Ha.
  unfold respuestaCodigo. destruct (findOne _ _); reflexivity.
Qed.

Lemma delete_validado (codigo : string) (w : mundo) :
  numTruthy (parseInt (trim codigo)) = true ->
  disponible w = true ->
  averiado w = false ->
  atiende (Delete codigo) w
  = let f := ("codigo", Igual (parseInt (trim codigo))) in
    ([EvConnect; EvQuery (QDeleteOne f);
      EvSend (respuestaDelete (acuse w (deleteOne f (coleccion w)).2));
      EvClose],
     conColeccion (deleteOne f (coleccion w)).1 w).
Proof.
  intros Hn Hd Ha. abre. avanza Hn. avanza Hd. avanza Ha.
  destruct (deleteOne _ _) as [col r]. cbn [fst snd]. unfold respuestaDelete.
  destruct (negb (acknowledged (acuse w r)) && (deletedCount (acuse w r) =? 0));
    reflexivity.
Qed.

Lemma put_validado (codigo : string) (body : object) (w : mundo) :
  validateReplace codigo body = true ->
  disponible w = true ->
  averiado w = false ->
  atiende (Put codigo body) w
  = let f := ("codigo", Igual (parseInt (trim codigo))) in
    ([EvConnect; EvQuery (QUpdateOne f body);
      EvSend (respuestaPut body (acuse w (updateOne f body (coleccion w)).2));
      EvClose],
     conColeccion (updateOne f body (coleccion w)).1 w).
Proof.
  unfold validateReplace. intros Hv Hd Ha.
  repeat match goal with
         | H : _ && _ = true |- _ => apply andb_true_iff in H; destruct H
         end.
  repeat match goal with H : negb _ = true |- _ => apply negb_true_iff in H end.
  abre. cbn [truthy negb].
  destruct (controlDeCampos body); [| discriminate].
  cbn [length Nat.ltb Nat.leb].
  repeat match goal with H : _ = _ |- _ => avanza H end.
  destruct (updateOne _ _ _) as [col r]. cbn [fst snd]. unfold respuestaPut.
  destruct (acknowledged (acuse w r) &&
            ((matchedCount (acuse w r) =? 1) && (modifiedCount (acuse w r) =? 1)));
    reflexivity.
Qed.

Lemma valorDigito_digito (c : ascii) :
  esDigito c = true -> valorDigito 10 c = Some (Z.of_N (N_of_ascii c) - 48).
Proof.
  unfold esDigito, valorDigito. intros H. rewrite H.
  apply andb_true_iff in H. destruct H as [H1 H2].
  apply Z.leb_le in H1, H2.
  destruct (Z.ltb_spec (Z.of_N (N_of_ascii c) - 48) 10); [reflexivity | lia].
Qed.

Lemma valorDigito_no_digito (c : ascii) :
  esDigito c = false -> valorDigito 10 c = None.
Proof.
  unfold esDigito, valorDigito. intros H. rewrite H.
  destruct ((97 <=? Z.of_N (N_of_ascii c)) && (Z.of_N (N_of_ascii c) <=? 122)) eqn:E1.
  - apply andb_true_iff in E1. destruct E1 as [H1 H2]. apply Z.leb_le in H1, H2.
    destruct (Z.ltb_spec (Z.of_N (N_of_ascii c) - 87) 10); [lia | reflexivity].
  - destruct ((65 <=? Z.of_N (N_of_ascii c)) && (Z.of_N (N_of_ascii c) <=? 90)) eqn:E2.
    + apply andb_true_iff in E2. destruct E2 as [H1 H2]. apply Z.leb_le in H1, H2.
      destruct (Z.ltb_spec (Z.of_N (N_of_ascii c) - 55) 10); [lia | reflexivity].
    + reflexivity.
Qed.

Lemma append_String (c : ascii) (r s : string) :
  String c r +:+ s = String c (r +:+ s).
Proof. reflexivity. Qed.

Lemma append_vacio (s : string) : "" +:+ s = s.
Proof. reflexivity. Qed.

Lemma leeDigitos_resto (resto : string) (acc : option Z) :
  sinDigitoInicial resto = true -> leeDigitos 10 resto acc = acc.
Proof.
  destruct resto as [| c r]; [reflexivity |]. cbn [sinDigitoInicial leeDigitos].
  intros H. apply negb_true_iff in H. now rewrite (valorDigito_no_digito c H).
Qed.

Lemma leeDigitos_decimal (ds resto : string) (acc : option Z) :
  soloDigitos ds = true ->
  sinDigitoInicial resto = true ->
  leeDigitos 10 (ds +:+ resto) acc = Some (valorDecimal ds (default 0 acc)).
Proof.
  intros Hds Hr. revert acc. induction ds as [| c r IH]; [discriminate |].
  intros acc. rewrite append_String. cbn [leeDigitos valorDecimal].
  destruct r as [| c' r'].
  - cbn [soloDigitos] in Hds. rewrite (valorDigito_digito c Hds).
    rewrite append_vacio. cbn [valorDecimal]. now apply leeDigitos_resto.
  - change (soloDigitos (String c (String c' r')))
      with (esDigito c && soloDigitos (String c' r')) in Hds.
    apply andb_true_iff in Hds. destruct Hds as [Hc Hds].
    rewrite (valorDigito_digito c Hc). rewrite (IH Hds). reflexivity.
Qed.

Lemma digito_inicial (c : ascii) (r : string) :
  esDigito c = true ->
  trimStart (String c r) = String c r /\
  quitaSigno (String c r) = (false, String c r).
Proof.
  destruct c as [[] [] [] [] [] [] [] []]; intros H;
    try discriminate H; split; reflexivity.
Qed.

Lemma radix_decimal (s : string) :
  empiezaHex s = false ->
  match s with
  | String "0" (String x r) =>
      if Ascii.eqb x "x" || Ascii.eqb x "X" then (16, r) else (10, s)
  | _ => (10, s)
  end = (10, s).
Proof.
  intros H. destruct s as [| c [| x r]]; [reflexivity | |].
  - destruct c as [[] [] [] [] [] [] [] []]; reflexivity.
  - destruct c as [[] [] [] [] [] [] [] []]; try reflexivity.
    cbn [empiezaHex] in H. rewrite H. reflexivity.
Qed.

(** [parseInt] on a text that starts with decimal digits and is not
    hexadecimal: the leading integer. *)
Lemma parseInt_decimal (ds resto : string) :
  soloDigitos ds = true ->
  sinDigitoInicial resto = true ->
  empiezaHex (ds +:+ resto) = false ->
  parseInt (ds +:+ resto) = Fin (valorDecimal ds 0) 0.
Proof.
  intros Hds Hr Hx. unfold parseInt.
  assert (exists c r, ds +:+ resto = String c r /\ esDigito c = true)
    as (c & r & E & Hc).
  { destruct ds as [| c [| c' r']]; [discriminate | |].
    - exists c, resto. split; [reflexivity | exact Hds].
    - exists c, (String c' r' +:+ resto). split; [reflexivity |].
      change (esDigito c && soloDigitos (String c' r') = true) in Hds.
      now apply andb_true_iff in Hds. }
  destruct (digito_inicial c r Hc) as [Ht Hs].
  pose proof (leeDigitos_decimal ds resto None Hds Hr) as Hl.
  rewrite E in Hx, Hl |- *. rewrite Ht, Hs. cbv beta iota.
  rewrite (radix_decimal _ Hx). cbv beta iota. rewrite Hl. reflexivity.
Qed.

Lemma valorDecimal_nonneg (ds : string) (acc : Z) :
  soloDigitos ds = true -> 0 <= acc -> 0 <= valorDecimal ds acc.
Proof.
  revert acc. induction ds as [| c r IH]; [discriminate |]. intros acc Hds Ha.
  cbn [valorDecimal]. destruct r as [| c' r'].
  - cbn [soloDigitos] in Hds. unfold esDigito in Hds.
    apply andb_true_iff in Hds. destruct Hds as [H1 H2].
    apply Z.leb_le in H1, H2. cbn [valorDecimal]. lia.
  - change (esDigito c && soloDigitos (String c' r') = true) in Hds.
    apply andb_true_iff in Hds. destruct Hds as [Hc Hds].
    apply IH; [exact Hds |]. unfold esDigito in Hc.
    apply andb_true_iff in Hc. destruct Hc as [H1 H2].
    apply Z.leb_le in H1, H2. lia.
Qed.

Lemma digito_no_es_x (c : ascii) :
  esDigito c = true -> Ascii.eqb c "x" || Ascii.eqb c "X" = false.
Proof.
  destruct c as [[] [] [] [] [] [] [] []]; intros H;
    try discriminate H; reflexivity.
Qed.

(** A leading integer other than zero is never read as hexadecimal. *)
Lemma positivo_sin_hex (ds resto : string) :
  soloDigitos ds = true ->
  sinDigitoInicial resto = true ->
  0 < valorDecimal ds 0 ->
  empiezaHex (ds +:+ resto) = false.
Proof.
  intros Hds Hr Hn. destruct ds as [| c [| c' r']]; [discriminate | |].
  - cbn [soloDigitos valorDecimal] in *. rewrite append_String, append_vacio.
    destruct c as [[] [] [] [] [] [] [] []]; try discriminate Hds;
      try (destruct resto; reflexivity).
    cbn in Hn. lia.
  - change (esDigito c && soloDigitos (String c' r') = true) in Hds.
    apply andb_true_iff in Hds. destruct Hds as [Hc Hds].
    assert (esDigito c' = true) as Hc'.
    { destruct r'; [exact Hds |].
      change (esDigito c' && soloDigitos (String a r') = true) in Hds.
      now apply andb_true_iff in Hds. }
    rewrite !append_String.
    destruct c as [[] [] [] [] [] [] [] []]; try discriminate Hc; try reflexivity.
    cbn [empiezaHex]. now apply digito_no_es_x.
Qed.

Lemma entero_positivo (n : Z) :
  0 < n ->
  numTruthy (Fin n 0) = true /\
  numLe (Fin n 0) (Fin 0 0) = false /\
  numLt (Fin n 0) (Fin 1 0) = false.
Proof.
  intros H. unfold numTruthy, numLe, numLt, numEq, cmpFin.
  cbn [Z.min Z.sub Z.opp Z.add Z.pow Z.pow_pos Pos.iter Z.compare].
  rewrite !Z.mul_1_r. change (0 * 1) with 0. change (1 * 1) with 1.
  destruct (Z.eqb_spec n 0); [lia |].
  destruct (Z.compare_spec n 0); try lia.
  destruct (Z.compare_spec n 1); try lia; repeat split; reflexivity.
Qed.

Lemma getCodigo_400 (codigo : string) (w : mundo) :
  (exists r, In r (respuestas (atiende (GetCodigo codigo) w).1) /\ status r = 400)
  <-> isNaN (parseInt (trim codigo)) = true.
Proof.
  destruct (isNaN (parseInt (trim codigo))) eqn:Hn.
  - split; [reflexivity | intros _]. abre. rewrite Hn.
    eexists. split; [left; reflexivity | reflexivity].
  - split; [| discriminate]. intros (r & Hin & Hr). exfalso.
    destruct w as [col id d a rc]. revert Hin. abre. rewrite Hn.
    cbn [disponible averiado]. destruct d; cbn [negb].
    + destruct a.
      * intros [<- | []]. discriminate.
      * destruct (findOne _ _); intros [<- | []]; discriminate.
    + intros [<- | []]. discriminate.
Qed.




Example codigo_sin_numero_rechazado :
  parseInt (trim "abc") = NaN /\
  atiende (GetCodigo "abc") (Ejemplos.almacen [Ejemplos.monitor])
  = ([EvSend (rechazo "El código del producto no es válido, debe ser numérico")],
     Ejemplos.almacen [Ejemplos.monitor]).
Proof. split; reflexivity. Qed.

(** A code written in hexadecimal is not parsed as its leading digit. *)
Example codigo_hexadecimal :
  parseInt (trim "0x1f") = Fin 31 0 /\
  parseInt (trim "0xyz") = NaN.
Proof. split; reflexivity. Qed.

(** *** What the create and delete operations do get right *)

(** When the lookup by the parsed codigo finds a document, the create
    operation answers 400 and inserts nothing. *)
Lemma post_codigo_encontrado (body : object) (w : mundo) (d : document) :
  validateCreate body = true ->
  disponible w = true ->
  averiado w = false ->
  findOne ("codigo", Igual (parseInt (ToString (prop body "codigo")))) (coleccion w)
  = Some d ->
  exists msg,
    atiende (Post body) w
    = ([EvConnect;
        EvQuery (QFindOne ("codigo", Igual (parseInt (ToString (prop body "codigo")))));
        EvSend (rechazo msg); EvClose], w).
Proof.
  unfold validateCreate, codigoValido. intros Hv Hd Ha Hf.
  repeat match goal with
         | H : _ && _ = true |- _ => apply andb_true_iff in H; destruct H
         end.
  repeat match goal with H : negb _ = true |- _ => apply negb_true_iff in H end.
  abre. destruct (controlDeCampos body); [| discriminate].
  cbn [length Nat.ltb Nat.leb strictEq].
  repeat match goal with H : _ = _ |- _ => avanza H end.
  rechaza.
Qed.

(** Creating the number 10 twice: the second request is a conflict and the
    collection keeps one document with that codigo. *)
Example post_codigo_10_dos_veces :
  map (fun t => map status (respuestas t))
      (sirve [Post Ejemplos.raton; Post Ejemplos.raton] (Ejemplos.almacen [])).1
  = [[201]; [400]] /\
  length (conCodigo (VNum (Fin 10 0))
            (coleccion (sirve [Post Ejemplos.raton; Post Ejemplos.raton]
                              (Ejemplos.almacen [])).2)) = 1%nat.
Proof. split; reflexivity. Qed.

(** A codigo with decimals is looked up by its integer part and stored as
    sent: it is duplicated too. *)
Example post_codigo_decimal_se_duplica :
  map (fun t => map status (respuestas t))
      (sirve [Post (Ejemplos.producto (VNum (Fin 105 (-1))) "Mouse" 5 "Perifericos");
              Post (Ejemplos.producto (VNum (Fin 105 (-1))) "Mouse" 5 "Perifericos")]
             (Ejemplos.almacen [])).1
  = [[201]; [201]].
Proof. reflexivity. Qed.

(** With acknowledged writes the delete operation never answers 404. *)
Lemma delete_con_acuse_responde_200 (codigo : string) (w : mundo) :
  numTruthy (parseInt (trim codigo)) = true ->
  disponible w = true ->
  averiado w = false ->
  reconoce w = true ->
  respuestas (atiende (Delete codigo) w).1
  = [{| status := 200; json := exito "Producto eliminado con éxito" |}].
Proof.
  intros Hn Hd Ha Hr. rewrite (delete_validado _ _ Hn Hd Ha). cbv zeta.
  unfold acuse, deleteOne. rewrite Hr.
  destruct (list_find _ _) as [[i d] |]; reflexivity.
Qed.

(** Deleting an existing code and then asking for it: 200, then 404. *)
Example delete_luego_get :
  map (fun t => map status (respuestas t))
      (sirve [Delete "5"; GetCodigo "5"] (Ejemplos.almacen [Ejemplos.monitor])).1
  = [[200]; [404]].
Proof. reflexivity. Qed.

(** *** The envelope, elsewhere *)

(** Every response of every route is in the envelope, but for the two
    responses above. *)
Lemma sobre_salvo_dos (p : peticion) (w : mundo) (r : response) :
  In r (respuestas (atiende p w).1) ->
  sobre (json r) = true \/
  (exists productos,
     p = GetCategoria productos /\ status r = 200 /\
     keys (json r) = ["respnse"; "success"; "msg"]) \/
  (exists codigo body,
     p = Put codigo body /\ status r = 500 /\
     keys (json r) = ["response"; "msg"]).
Proof.
  destruct w as [col id d a rc].
  destruct p as [| c | n | pr | c | body | c body | c body | c |];
    unfold atiende, manejador, getRaiz, getNombre, getCategoria, rutaInvalida,
      acuse; abre.
  all: ramifica.
  all: cbn; try (intros [<- | []]); try (intros []); try (left; reflexivity).
  all: try (right; left; eexists; repeat split; reflexivity).
  all: try (right; right; eexists; eexists; repeat split; reflexivity).
Qed.

(** ** Properties of every route *)



Lemma compila_cuantificador (c : ascii) (r : string) :
  In c ["*"; "+"; "?"]%char ->
  Regex.compila (String c r) = None /\
  Regex.compila ("^" +:+ String c r +:+ "$") = None.
Proof.
  intros Hc. unfold Regex.compila.
  change ("^" +:+ String c r +:+ "$") with (String "^" (String c (r +:+ "$"))).
  cbn [String.length].
  replace (4 * S (S (String.length (r +:+ "$"))) + 4)%nat
    with (S (S (S (S (8 + 4 * String.length (r +:+ "$"))))))%nat by lia.
  replace (4 * S (String.length r) + 4)%nat
    with (S (S (S (S (4 + 4 * String.length r)))))%nat by lia.
  destruct Hc as [<- | [<- | [<- | []]]]; split; reflexivity.
Qed.

(** X7: a search by name or by category whose parameter starts with a
    quantifier is not answered: the constructor of the pattern throws
    before the [try], so that nothing is sent and the store is not
    reached. *)
Theorem patron_rechazado (parametro : string) (c : ascii) (r : string)
    (w : mundo) :
  trim parametro = String c r ->
  In c ["*"; "+"; "?"]%char ->
  atiende (GetNombre parametro) w = ([], w) /\
  atiende (GetCategoria parametro) w = ([], w).
Proof.
  intros Ht Hc. destruct (compila_cuantificador c r Hc) as [H1 H2].
  unfold atiende, manejador, getNombre, getCategoria. cbv zeta.
  rewrite Ht, H1, H2. split; reflexivity.
Qed.

Lemma patron_rechazado_testigo :
  atiende (GetNombre " *a") (Ejemplos.almacen [Ejemplos.monitor])
  = ([], Ejemplos.almacen [Ejemplos.monitor]) /\
  atiende (GetCategoria " *a") (Ejemplos.almacen [Ejemplos.monitor])
  = ([], Ejemplos.almacen [Ejemplos.monitor]).
Proof.
  apply (patron_rechazado " *a" "*"%char "a" (Ejemplos.almacen [Ejemplos.monitor]));
    [reflexivity | left; reflexivity].
Defined.

(** X2: the status of a response is one of 200, 201, 400, 404 and 500; 201 is
    only sent by the create operation. *)
Theorem estados_posibles (p : peticion) (w : mundo) (r : response) :
  In r (respuestas (atiende p w).1) ->
  In (status r) [200; 201; 400; 404; 500] /\
  (status r = 201 -> exists body, p = Post body).
Proof.
  destruct w as [col id d a rc].
  destruct p as [| c | n | pr | c | body | c body | c body | c |]; rutas.
  all: ramifica.
  all: cbn; try (intros [<- | []]); try (intros []).
  all: split; [cbn; tauto | cbn; intros E; try discriminate E].
  all: eexists; reflexivity.
Qed.

Lemma estados_posibles_testigo :
  In 201 [200; 201; 400; 404; 500] /\
  (201 = 201 -> exists body, Post Ejemplos.raton = Post body).
Proof.
  apply (estados_posibles (Post Ejemplos.raton) (Ejemplos.almacen [])
           {| status := 201;
              json := exitoCon (VObj (Ejemplos.raton ++ [("_id", VOid 0)]))
                        "Nuevo producto creado con éxito" |}).
  left. reflexivity.
Defined.

(** X3: the client is opened at most once, first of all, and then it is closed
    last of all; the queries come in between, and only when the connection
    succeeded.  A request that does not open the client issues no query. *)
Theorem conecta_y_cierra (p : peticion) (w : mundo) :
  let t := (atiende p w).1 in
  Forall (fun e => tocaAlmacen e = false) t \/
  (t = EvConnect :: medio t ++ [EvClose] /\
   Forall (fun e => e <> EvConnect /\ e <> EvClose) (medio t) /\
   (disponible w = false -> Forall (fun e => esConsulta e = false) (medio t))).
Proof.
  destruct w as [col id [] [] []];
    destruct p as [| c | n | pr | c | body | c body | c body | c |]; rutas.
  all: ramifica.
  all: cbv zeta; cbn;
    first [ left; solve [repeat constructor]
          | right; split; [reflexivity |]; split;
            [ cbn; repeat constructor; discriminate
            | intros E; try discriminate E; cbn; repeat constructor ] ].
Qed.

(** X4: the routes that read leave the store as it was and issue no query
    that writes. *)
Theorem lecturas_no_escriben (p : peticion) (w : mundo) :
  soloLee p = true ->
  (atiende p w).2 = w /\
  Forall (fun e => escribe e = false) (atiende p w).1.
Proof.
  destruct w as [col id d a rc].
  destruct p as [| c | n | pr | c | body | c body | c body | c |];
    intros H; try discriminate H; clear H; rutas.
  all: ramifica.
  all: split; [reflexivity | repeat constructor].
Qed.

Lemma lecturas_no_escriben_testigo :
  (atiende (GetPrecio "50") (Ejemplos.almacen [Ejemplos.monitor])).2
  = Ejemplos.almacen [Ejemplos.monitor] /\
  Forall (fun e => escribe e = false)
    (atiende (GetPrecio "50") (Ejemplos.almacen [Ejemplos.monitor])).1.
Proof.
  apply (lecturas_no_escriben (GetPrecio "50")
           (Ejemplos.almacen [Ejemplos.monitor])).
  reflexivity.
Defined.

(** X5: when the store cannot be reached, no query is issued, the collection
    is left as it was, and a request that tried to connect is answered 500
    with the connection message. *)
Theorem sin_conexion (p : peticion) (w : mundo) :
  disponible w = false ->
  (atiende p w).2 = w /\
  Forall (fun e => esConsulta e = false) (atiende p w).1 /\
  (In EvConnect (atiende p w).1 ->
   respuestas (atiende p w).1
   = [{| status := 500; json := fallo "Error al conectarse a MongoDB" |}]).
Proof.
  destruct w as [col id d a rc]. cbn [disponible]. intros ->.
  destruct p as [| c | n | pr | c | body | c body | c body | c |]; rutas.
  all: ramifica.
  all: split; [reflexivity |]; split; [repeat constructor |].
  all: cbn; intros H; try reflexivity.
  all: repeat (destruct H as [H | H]); try discriminate H; try contradiction.
Qed.

Lemma sin_conexion_testigo :
  (atiende (Delete "5")
     {| coleccion := [Ejemplos.monitor]; proximoId := 1; disponible := false;
        averiado := false; reconoce := true |}).2
  = {| coleccion := [Ejemplos.monitor]; proximoId := 1; disponible := false;
       averiado := false; reconoce := true |} /\
  respuestas (atiende (Delete "5")
     {| coleccion := [Ejemplos.monitor]; proximoId := 1; disponible := false;
        averiado := false; reconoce := true |}).1
  = [{| status := 500; json := fallo "Error al conectarse a MongoDB" |}].
Proof.
  destruct (sin_conexion (Delete "5")
     {| coleccion := [Ejemplos.monitor]; proximoId := 1; disponible := false;
        averiado := false; reconoce := true |} eq_refl) as (H1 & _ & H3).
  split; [exact H1 | apply H3]. left. reflexivity.
Defined.

(** X6: when the collection calls reject, the store is left as it was and the
    request whose query was rejected is answered 500, after which the
    client is closed. *)
Theorem consulta_rechazada (p : peticion) (w : mundo) :
  averiado w = true ->
  (atiende p w).2 = w /\
  (forall q, In (EvQuery q) (atiende p w).1 ->
     exists msg,
       (atiende p w).1
       = [EvConnect; EvQuery q;
          EvSend {| status := 500; json := fallo msg |}; EvClose]).
Proof.
  destruct w as [col id d a rc]. cbn [averiado]. intros ->.
  destruct p as [| c | n | pr | c | body | c body | c body | c |]; rutas.
  all: ramifica.
  all: split; [reflexivity |].
  all: cbn; intros q H.
  all: repeat (destruct H as [H | H]); try discriminate H; try contradiction.
  all: injection H as <-; eexists; reflexivity.
Qed.

Lemma consulta_rechazada_testigo :
  (atiende (Post Ejemplos.raton)
     {| coleccion := []; proximoId := 0; disponible := true;
        averiado := true; reconoce := true |}).2
  = {| coleccion := []; proximoId := 0; disponible := true;
       averiado := true; reconoce := true |}.
Proof.
  apply (consulta_rechazada (Post Ejemplos.raton)
     {| coleccion := []; proximoId := 0; disponible := true;
        averiado := true; reconoce := true |} eq_refl).
Defined.

Lemma conecta_y_cierra_testigo :
  (atiende (Patch "5" [("precio", VNum (Fin 250 0))])
           (Ejemplos.almacen [Ejemplos.monitor])).1
  = EvConnect
    :: medio (atiende (Patch "5" [("precio", VNum (Fin 250 0))])
                      (Ejemplos.almacen [Ejemplos.monitor])).1
    ++ [EvClose].
Proof.
  destruct (conecta_y_cierra (Patch "5" [("precio", VNum (Fin 250 0))])
              (Ejemplos.almacen [Ejemplos.monitor])) as [H | [H _]].
  - exfalso. cbn in H. inversion H as [| e l He Hl]. discriminate He.
  - exact H.
Defined.

(** ** Create, then read *)

Lemma prop_ausente (o : object) (k : string) :
  ~ In k (keys o) -> prop o k = VUndefined /\ existsb (String.eqb k) (keys o) = false.
Proof.
  induction o as [| [k0 v0] o IH]; [split; reflexivity |].
  cbn [keys map fst In prop existsb]. intros H.
  destruct (String.eqb_spec k0 k) as [-> | Hk]; [destruct H; now left |].
  destruct IH as [IH1 IH2]; [intros Hin; apply H; now right |].
  rewrite (String.eqb_sym k k0). destruct (String.eqb_spec k0 k); [contradiction |].
  split; assumption.
Qed.

Lemma prop_app (o o' : object) (k : string) (v : value) :
  prop o k = v -> v <> VUndefined -> prop (o ++ o') k = v.
Proof.
  induction o as [| [k0 v0] o IH]; cbn [prop app].
  - intros <- H. now destruct H.
  - destruct (String.eqb k0 k); [intros; assumption | exact IH].
Qed.

Lemma conId_nuevo (id : N) (body : object) :
  controlDeCampos body = [] -> conId id body = body ++ [("_id", VOid id)].
Proof.
  intros H. assert (~ In "_id" (keys body)) as Hn.
  { intros Hin. pose proof (proj1 (controlDeCampos_nil body) H _ Hin) as Hp.
    cbn in Hp. repeat (destruct Hp as [Hp | Hp]; try discriminate Hp). exact Hp. }
  destruct (prop_ausente body "_id" Hn) as [H1 H2].
  unfold conId, asigna. cbn [fst snd]. now rewrite H1, H2.
Qed.

Lemma find_app_nuevo (f : document -> bool) (col : list document) (d : document) :
  List.find f col = None -> f d = true -> List.find f (col ++ [d]) = Some d.
Proof.
  induction col as [| e col IH]; cbn [List.find app].
  - intros _ ->. reflexivity.
  - destruct (f e); [discriminate | exact IH].
Qed.

(** The create operation on a request that passes validation, with a
    store that answers. *)
Lemma post_validado (body : object) (w : mundo) :
  validateCreate body = true ->
  disponible w = true ->
  averiado w = false ->
  atiende (Post body) w
  = let c := parseInt (ToString (prop body "codigo")) in
    match findOne ("codigo", Igual c) (coleccion w) with
    | Some _ =>
        ([EvConnect; EvQuery (QFindOne ("codigo", Igual c));
          EvSend (rechazo ("El código de producto " +:+ numToString c +:+
                    ", ya existe. No puede haber otro nuevo producto con el mismo código"));
          EvClose], w)
    | None =>
        ([EvConnect; EvQuery (QFindOne ("codigo", Igual c));
          EvQuery (QInsertOne body);
          EvSend (if reconoce w
                  then {| status := 201;
                          json := exitoCon (VObj (conId (proximoId w) body))
                                    "Nuevo producto creado con éxito" |}
                  else {| status := 500;
                          json := fallo "No se pudo crear el nuevo producto" |});
          EvClose],
         {| coleccion := coleccion w ++ [conId (proximoId w) body];
            proximoId := N.succ (proximoId w); disponible := disponible w;
            averiado := averiado w; reconoce := reconoce w |})
    end.
Proof.
  unfold validateCreate, codigoValido. intros Hv Hd Ha.
  repeat match goal with
         | H : _ && _ = true |- _ => apply andb_true_iff in H; destruct H
         end.
  repeat match goal with H : negb _ = true |- _ => apply negb_true_iff in H end.
  destruct w as [col id d a rc]. cbn [disponible averiado] in Hd, Ha. subst d a.
  abre. destruct (controlDeCampos body); [| discriminate].
  cbn [length Nat.ltb Nat.leb strictEq].
  repeat match goal with H : _ = _ |- _ => avanza H end.
  cbn [disponible averiado coleccion negb]. cbv beta iota zeta.
  destruct (findOne _ col); [reflexivity |].
  cbn [averiado]. unfold acuse, insertOne. cbn [reconoce fst snd].
  destruct rc; reflexivity.
Qed.

(** X8: create, then get by code: when the codigo is sent as a number that
    [parseInt] reads back unchanged and no document has it yet, the create
    operation answers 201 with the body completed with its [_id], appends
    that document to the collection, and the get-by-code operation then
    answers 200 with the same document. *)
Theorem crear_y_consultar (body : object) (codigo : string) (w : mundo)
    (x : number) :
  validateCreate body = true ->
  disponible w = true ->
  averiado w = false ->
  reconoce w = true ->
  prop body "codigo" = VNum x ->
  numIgual x (parseInt (ToString (VNum x))) = true ->
  findOne ("codigo", Igual (parseInt (ToString (VNum x)))) (coleccion w) = None ->
  parseInt (trim codigo) = parseInt (ToString (VNum x)) ->
  let d := body ++ [("_id", VOid (proximoId w))] in
  respuestas (atiende (Post body) w).1
  = [{| status := 201;
        json := exitoCon (VObj d) "Nuevo producto creado con éxito" |}] /\
  coleccion (atiende (Post body) w).2 = coleccion w ++ [d] /\
  respuestas (atiende (GetCodigo codigo) (atiende (Post body) w).2).1
  = [{| status := 200;
        json := exitoCon (VObj d)
                  ("Producto " +:+ numToString (parseInt (trim codigo))
                   +:+ " encontrado con éxito") |}].
Proof.
  intros Hv Hd Ha Hr Hx Hn Hf Hc d.
  assert (controlDeCampos body = []) as Hcampos.
  { unfold validateCreate in Hv.
    repeat match goal with
           | H : _ && _ = true |- _ => apply andb_true_iff in H; destruct H
           end.
    destruct (controlDeCampos body); [reflexivity | discriminate]. }
  assert (isNaN (parseInt (ToString (VNum x))) = false) as Hnan.
  { unfold validateCreate, codigoValido in Hv. rewrite Hx in Hv.
    repeat match goal with
           | H : _ && _ = true |- _ => apply andb_true_iff in H; destruct H
           end.
    destruct (parseInt (ToString (VNum x))); [discriminate | reflexivity | reflexivity]. }
  rewrite (post_validado body w Hv Hd Ha). cbv zeta.
  rewrite Hx, Hf, Hr, (conId_nuevo _ _ Hcampos). fold d. cbn [fst snd].
  split; [reflexivity |]. split; [reflexivity |].
  rewrite getCodigo_numerico; cbn [disponible averiado coleccion];
    rewrite ?Hc; try assumption.
  cbn [fst]. unfold findOne.
  rewrite (find_app_nuevo _ _ d Hf).
  - reflexivity.
  - unfold coincide, d. cbn [fst snd].
    rewrite (prop_app body [("_id", VOid (proximoId w))] "codigo" (VNum x) Hx)
      by discriminate.
    exact Hn.
Qed.

Lemma crear_y_consultar_testigo :
  respuestas (atiende (Post Ejemplos.raton) (Ejemplos.almacen [Ejemplos.monitor])).1
  = [{| status := 201;
        json := exitoCon (VObj (Ejemplos.raton ++ [("_id", VOid 1)]))
                  "Nuevo producto creado con éxito" |}] /\
  coleccion (atiende (Post Ejemplos.raton) (Ejemplos.almacen [Ejemplos.monitor])).2
  = [Ejemplos.monitor] ++ [Ejemplos.raton ++ [("_id", VOid 1)]] /\
  respuestas (atiende (GetCodigo " 10 ")
                (atiende (Post Ejemplos.raton)
                         (Ejemplos.almacen [Ejemplos.monitor])).2).1
  = [{| status := 200;
        json := exitoCon (VObj (Ejemplos.raton ++ [("_id", VOid 1)]))
                  ("Producto " +:+ numToString (parseInt (trim " 10 "))
                   +:+ " encontrado con éxito") |}].
Proof.
  apply (crear_y_consultar Ejemplos.raton " 10 "
           (Ejemplos.almacen [Ejemplos.monitor]) (Fin 10 0)); reflexivity.
Defined.

(** X9: creating a code that is there: when a stored document answers to the
    parsed codigo of the body, the create operation answers 400 with the
    message that names the code, after the lookup alone, and inserts
    nothing. *)
Theorem crear_repetido (body : object) (w : mundo) (d : document) :
  validateCreate body = true ->
  disponible w = true ->
  averiado w = false ->
  In d (coleccion w) ->
  coincide ("codigo", Igual (parseInt (ToString (prop body "codigo")))) d = true ->
  atiende (Post body) w
  = let c := parseInt (ToString (prop body "codigo")) in
    ([EvConnect; EvQuery (QFindOne ("codigo", Igual c));
      EvSend {| status := 400;
                json := fallo ("El código de producto " +:+ numToString c +:+
                         ", ya existe. No puede haber otro nuevo producto con el mismo código") |};
      EvClose], w).
Proof.
  intros Hv Hd Ha Hin Hc. rewrite (post_validado body w Hv Hd Ha). cbv zeta.
  destruct (findOne _ _) eqn:Hf; [reflexivity |].
  unfold findOne in Hf. rewrite (find_none _ _ Hf d Hin) in Hc. discriminate Hc.
Qed.

Lemma crear_repetido_testigo :
  atiende (Post Ejemplos.raton) (Ejemplos.almacen [Ejemplos.raton])
  = let c := parseInt (ToString (prop Ejemplos.raton "codigo")) in
    ([EvConnect; EvQuery (QFindOne ("codigo", Igual c));
      EvSend {| status := 400;
                json := fallo ("El código de producto " +:+ numToString c +:+
                         ", ya existe. No puede haber otro nuevo producto con el mismo código") |};
      EvClose], Ejemplos.almacen [Ejemplos.raton]).
Proof.
  apply (crear_repetido Ejemplos.raton (Ejemplos.almacen [Ejemplos.raton])
           Ejemplos.raton); [reflexivity | reflexivity | reflexivity | | reflexivity].
  left. reflexivity.
Defined.


(** ** Numbers that are equal *)

Lemma cmpFin_Eq (m1 e1 m2 e2 k : Z) :
  k <= e1 -> k <= e2 ->
  (cmpFin m1 e1 m2 e2 = Eq <-> m1 * 10 ^ (e1 - k) = m2 * 10 ^ (e2 - k)).
Proof.
  intros H1 H2. unfold cmpFin. rewrite Z.compare_eq_iff.
  set (e := Z.min e1 e2).
  assert (k <= e) as He by (unfold e; lia).
  assert (e <= e1 /\ e <= e2) as [He1 He2] by (unfold e; lia).
  replace (e1 - k) with ((e1 - e) + (e - k)) by lia.
  replace (e2 - k) with ((e2 - e) + (e - k)) by lia.
  rewrite !Z.pow_add_r by lia.
  assert (0 < 10 ^ (e - k)) as Hp by (apply Z.pow_pos_nonneg; lia).
  rewrite !Z.mul_assoc. split.
  - intros ->. reflexivity.
  - intros H. apply Z.mul_cancel_r in H; [exact H | lia].
Qed.

Lemma numIgual_refl (a : number) : numIgual a a = true.
Proof.
  destruct a as [| [] | m e]; try reflexivity.
  unfold numIgual, numEq. now rewrite (proj2 (cmpFin_Eq m e m e e (Z.le_refl e) (Z.le_refl e))).
Qed.

Lemma numIgual_sym (a b : number) : numIgual a b = true -> numIgual b a = true.
Proof.
  destruct a as [| [] | m1 e1], b as [| [] | m2 e2]; try discriminate; try reflexivity.
  unfold numIgual, numEq.
  destruct (cmpFin m1 e1 m2 e2) eqn:E; try discriminate. intros _.
  apply (cmpFin_Eq m1 e1 m2 e2 (Z.min e1 e2)) in E; try lia.
  rewrite (proj2 (cmpFin_Eq m2 e2 m1 e1 (Z.min e1 e2) ltac:(lia) ltac:(lia)));
    [reflexivity | now symmetry].
Qed.

Lemma numIgual_trans (a b c : number) :
  numIgual a b = true -> numIgual b c = true -> numIgual a c = true.
Proof.
  destruct a as [| [] | m1 e1], b as [| [] | m2 e2], c as [| [] | m3 e3];
    try discriminate; try reflexivity.
  unfold numIgual, numEq.
  destruct (cmpFin m1 e1 m2 e2) eqn:E1; try discriminate.
  destruct (cmpFin m2 e2 m3 e3) eqn:E2; try discriminate. intros _ _.
  set (k := Z.min e1 (Z.min e2 e3)).
  apply (cmpFin_Eq m1 e1 m2 e2 k) in E1; try (unfold k; lia).
  apply (cmpFin_Eq m2 e2 m3 e3 k) in E2; try (unfold k; lia).
  rewrite (proj2 (cmpFin_Eq m1 e1 m3 e3 k ltac:(unfold k; lia) ltac:(unfold k; lia)));
    [reflexivity | congruence].
Qed.

(** A document that answers to a code answers to every equal code. *)
Lemma coincide_codigo_igual (n c : number) (d : document) :
  numIgual n c = true ->
  coincide ("codigo", Igual n) d = true ->
  coincide ("codigo", Igual c) d = true.
Proof.
  intros Hnc. unfold coincide. cbn [fst snd].
  assert (forall v, cumple (Igual n) v = true -> cumple (Igual c) v = true) as Hv.
  { intros [] H; try discriminate H. cbn in *. eapply numIgual_trans; eassumption. }
  destruct (prop d "codigo"); try discriminate; try apply Hv.
  rewrite !existsb_exists. intros (v & Hin & H). exists v. split; [assumption | now apply Hv].
Qed.

(** Whether a document answers to a code depends on its codigo alone. *)
Lemma coincide_codigo_prop (n : number) (d e : document) :
  prop d "codigo" = prop e "codigo" ->
  coincide ("codigo", Igual n) d = coincide ("codigo", Igual n) e.
Proof. unfold coincide. cbn [fst]. now intros ->. Qed.

Lemma findOne_None (f : filtro) (col : list document) (i : nat) (d : document) :
  findOne f col = None -> col !! i = Some d -> coincide f d = false.
Proof.
  intros Hf Hi. unfold findOne in Hf.
  apply (find_none _ _ Hf). apply list_elem_of_In.
  eapply list_elem_of_lookup_2. exact Hi.
Qed.

(** ** What each request does to the collection *)

Lemma mundo_intacto (p : peticion) (w : mundo) :
  disponible w = false \/ averiado w = true -> (atiende p w).2 = w.
Proof.
  destruct w as [col id [] [] rc]; intros [H | H]; try discriminate H; clear H;
    destruct p as [| c | n | pr | c | body | c body | c body | c |]; rutas.
  all: ramifica.
  all: reflexivity.
Qed.

Lemma delete_invalido (codigo : string) (w : mundo) :
  numTruthy (parseInt (trim codigo)) = false ->
  atiende (Delete codigo) w
  = ([EvSend (rechazo "Error en el formato de datos"); EvClose], w).
Proof. intros H. abre. rewrite H. reflexivity. Qed.

(** The collection after a request, from the collection before. *)
Lemma coleccion_despues (p : peticion) (w : mundo) :
  coleccion (atiende p w).2
  = if disponible w && negb (averiado w) then
      match p with
      | Post body =>
          if validateCreate body then
            match findOne ("codigo", Igual (parseInt (ToString (prop body "codigo"))))
                          (coleccion w) with
            | Some _ => coleccion w
            | None => coleccion w ++ [conId (proximoId w) body]
            end
          else coleccion w
      | Put codigo body =>
          if validateReplace codigo body
          then (updateOne ("codigo", Igual (parseInt (trim codigo))) body (coleccion w)).1
          else coleccion w
      | Patch codigo body =>
          if validatePricePatch codigo body
          then (updateOne ("codigo", Igual (parseInt (trim codigo)))
                  [("precio", VNum (parseFloat (ToString (prop body "precio"))))]
                  (coleccion w)).1
          else coleccion w
      | Delete codigo =>
          if numTruthy (parseInt (trim codigo))
          then (deleteOne ("codigo", Igual (parseInt (trim codigo))) (coleccion w)).1
          else coleccion w
      | _ => coleccion w
      end
    else coleccion w.
Proof.
  destruct (disponible w) eqn:Hd; cbn [andb];
    [| now rewrite mundo_intacto by (now left)].
  destruct (averiado w) eqn:Ha; cbn [negb];
    [now rewrite mundo_intacto by (now right) |].
  destruct p as [| c | n | pr | c | body | c body | c body | c |].
  - reflexivity.
  - destruct w as [col id d a rc]. rutas. ramifica; reflexivity.
  - destruct w as [col id d a rc]. rutas. ramifica; reflexivity.
  - destruct w as [col id d a rc]. rutas. ramifica; reflexivity.
  - destruct w as [col id d a rc]. rutas. ramifica; reflexivity.
  - destruct (validateCreate body) eqn:Hv.
    + rewrite (post_validado _ _ Hv Hd Ha). cbv zeta.
      destruct (findOne _ _); reflexivity.
    + destruct (post_invalido body w Hv) as (msg & [E | E]); now rewrite E.
  - destruct (validateReplace c body) eqn:Hv.
    + now rewrite (put_validado _ _ _ Hv Hd Ha).
    + destruct (put_invalido c body w Hv) as (msg & E). now rewrite E.
  - destruct (validatePricePatch c body) eqn:Hv.
    + now rewrite (patch_validado _ _ _ Hv Hd Ha).
    + destruct (patch_invalido c body w Hv) as (msg & E). now rewrite E.
  - destruct (numTruthy (parseInt (trim c))) eqn:Hn.
    + now rewrite (delete_validado _ _ Hn Hd Ha).
    + now rewrite (delete_invalido _ _ Hn).
  - reflexivity.
Qed.

(** ** The codes stay unique *)

Lemma unicos_app (col : list document) (d : document) :
  unicos col ->
  (forall n i e, coincide ("codigo", Igual n) d = true ->
                 col !! i = Some e -> coincide ("codigo", Igual n) e = false) ->
  unicos (col ++ [d]).
Proof.
  intros Hu Hd n i j a b Hi Hj Ha Hb.
  apply lookup_app_Some in Hi, Hj.
  destruct Hi as [Hi | [Hli Hi]], Hj as [Hj | [Hlj Hj]].
  - exact (Hu n i j a b Hi Hj Ha Hb).
  - destruct (j - length col)%nat; [| discriminate Hj].
    injection Hj as <-. rewrite (Hd n i a Hb Hi) in Ha. discriminate.
  - destruct (i - length col)%nat; [| discriminate Hi].
    injection Hi as <-. rewrite (Hd n j b Ha Hj) in Hb. discriminate.
  - destruct (i - length col)%nat eqn:Ei; [| discriminate Hi].
    destruct (j - length col)%nat eqn:Ej; [| discriminate Hj]. lia.
Qed.

Lemma unicos_insert (col : list document) (i : nat) (d d' : document) :
  unicos col ->
  col !! i = Some d ->
  prop d' "codigo" = prop d "codigo" ->
  unicos (<[i := d']> col).
Proof.
  intros Hu Hi Hp n a b x y Ha Hb Hx Hy.
  assert (forall j z, <[i := d']> col !! j = Some z ->
            exists z0, col !! j = Some z0 /\
              coincide ("codigo", Igual n) z = coincide ("codigo", Igual n) z0) as H.
  { intros j z Hj. apply list_lookup_insert_Some in Hj.
    destruct Hj as [(<- & <- & _) | (_ & Hj)].
    - exists d. split; [exact Hi | now apply coincide_codigo_prop].
    - exists z. split; [exact Hj | reflexivity]. }
  destruct (H a x Ha) as (x0 & Hx0 & Ex). destruct (H b y Hb) as (y0 & Hy0 & Ey).
  rewrite Ex in Hx. rewrite Ey in Hy. exact (Hu n a b x0 y0 Hx0 Hy0 Hx Hy).
Qed.

Lemma unicos_delete (col : list document) (i : nat) :
  unicos col -> unicos (delete i col).
Proof.
  intros Hu n a b x y Ha Hb Hx Hy.
  destruct (Nat.lt_ge_cases a i) as [Hai | Hai], (Nat.lt_ge_cases b i) as [Hbi | Hbi].
  - rewrite list_lookup_delete_lt in Ha, Hb by assumption.
    exact (Hu n a b x y Ha Hb Hx Hy).
  - rewrite list_lookup_delete_lt in Ha by assumption.
    rewrite list_lookup_delete_ge in Hb by assumption.
    pose proof (Hu n a (S b) x y Ha Hb Hx Hy). lia.
  - rewrite list_lookup_delete_ge in Ha by assumption.
    rewrite list_lookup_delete_lt in Hb by assumption.
    pose proof (Hu n (S a) b x y Ha Hb Hx Hy). lia.
  - rewrite list_lookup_delete_ge in Ha, Hb by assumption.
    pose proof (Hu n (S a) (S b) x y Ha Hb Hx Hy). lia.
Qed.

Lemma updateOne_precio (f : filtro) (v : value) (col : list document) :
  (updateOne f [("precio", v)] col).1 = col \/
  exists i d, col !! i = Some d /\
              (updateOne f [("precio", v)] col).1 = <[i := asigna d ("precio", v)]> col.
Proof.
  unfold updateOne. destruct (list_find _ col) as [[i d] |] eqn:Hf; [| now left].
  destruct (cambia _ d); [| now left]. right. exists i, d.
  apply list_find_Some in Hf. destruct Hf as (Hi & _). split; [exact Hi | reflexivity].
Qed.

Lemma deleteOne_delete (f : filtro) (col : list document) :
  (deleteOne f col).1 = col \/ exists i, (deleteOne f col).1 = delete i col.
Proof.
  unfold deleteOne. destruct (list_find _ col) as [[i d] |]; [| now left].
  right. now exists i.
Qed.

(** X10: the invariant of the collection: no two documents answer to the same
    code.  The price patch, the delete operation and the routes that read
    keep it; the create operation keeps it when the codigo of the body is a
    number that [parseInt] reads back unchanged. *)
Theorem codigos_unicos (p : peticion) (w : mundo) :
  unicos (coleccion w) ->
  match p with
  | Post body =>
      exists x, prop body "codigo" = VNum x /\
                numIgual x (parseInt (ToString (VNum x))) = true
  | Put _ _ => False
  | _ => True
  end ->
  unicos (coleccion (atiende p w).2).
Proof.
  intros Hu Hp. rewrite coleccion_despues.
  destruct (disponible w && negb (averiado w)); [| exact Hu].
  destruct p as [| c | n | pr | c | body | c body | c body | c |];
    try exact Hu; try contradiction.
  - destruct (validateCreate body) eqn:Hv; [| exact Hu].
    destruct (findOne _ _) eqn:Hf; [exact Hu |].
    destruct Hp as (x & Hx & Hn). rewrite Hx in Hf.
    assert (controlDeCampos body = []) as Hcampos.
    { unfold validateCreate in Hv.
      repeat match goal with
             | H : _ && _ = true |- _ => apply andb_true_iff in H; destruct H
             end.
      destruct (controlDeCampos body); [reflexivity | discriminate]. }
    rewrite (conId_nuevo _ _ Hcampos).
    apply unicos_app; [exact Hu |]. intros n i e Hd Hi.
    destruct (coincide ("codigo", Igual n) e) eqn:He; [| reflexivity].
    unfold coincide in Hd. cbn [fst snd] in Hd.
    rewrite (prop_app body _ "codigo" (VNum x) Hx) in Hd by discriminate.
    cbn in Hd.
    assert (numIgual n (parseInt (ToString (VNum x))) = true) as Hnc.
    { eapply numIgual_trans; [apply numIgual_sym; exact Hd | exact Hn]. }
    pose proof (coincide_codigo_igual _ _ _ Hnc He) as Hc.
    rewrite (findOne_None _ _ _ _ Hf Hi) in Hc. discriminate.
  - destruct (validatePricePatch c body); [| exact Hu].
    destruct (updateOne_precio ("codigo", Igual (parseInt (trim c)))
                (VNum (parseFloat (ToString (prop body "precio")))) (coleccion w))
      as [-> | (i & d & Hi & ->)]; [exact Hu |].
    apply (unicos_insert _ _ d); [exact Hu | exact Hi |].
    now apply prop_asigna_ne.
  - destruct (numTruthy _); [| exact Hu].
    destruct (deleteOne_delete ("codigo", Igual (parseInt (trim c))) (coleccion w))
      as [-> | (i & ->)]; [exact Hu | now apply unicos_delete].
Qed.

Lemma unicos_uno (d : document) : unicos [d].
Proof.
  intros n i j a b Hi Hj _ _.
  destruct i as [| i]; [| destruct i; discriminate Hi].
  destruct j as [| j]; [reflexivity | destruct j; discriminate Hj].
Qed.

Lemma codigos_unicos_testigo :
  unicos (coleccion (atiende (Post Ejemplos.raton)
                             (Ejemplos.almacen [Ejemplos.monitor])).2).
Proof.
  apply (codigos_unicos (Post Ejemplos.raton) (Ejemplos.almacen [Ejemplos.monitor])).
  - apply unicos_uno.
  - exists (Fin 10 0). split; reflexivity.
Defined.

(** The replace operation is outside the invariant: it sets the codigo of
    the body without looking it up. *)
Example put_duplica_codigo :
  coleccion (atiende (Put "10" (Ejemplos.producto (VNum (Fin 5 0)) "Mouse" 5 "Perifericos"))
               (Ejemplos.almacen [Ejemplos.monitor; Ejemplos.raton])).2
  = [Ejemplos.monitor;
     Ejemplos.producto (VNum (Fin 5 0)) "Mouse" 5 "Perifericos"] /\
  ~ unicos (coleccion (atiende (Put "10" (Ejemplos.producto (VNum (Fin 5 0)) "Mouse" 5 "Perifericos"))
               (Ejemplos.almacen [Ejemplos.monitor; Ejemplos.raton])).2).
Proof.
  split; [reflexivity |]. intros H.
  specialize (H (Fin 5 0) 0%nat 1%nat _ _ eq_refl eq_refl eq_refl eq_refl).
  discriminate H.
Qed.

(** ** Price patch, twice *)

Lemma valueEqb_num (p : number) : valueEqb (VNum p) (VNum p) = true.
Proof. apply numIgual_refl. Qed.

Lemma list_find_insert_mismo (f : document -> bool) (col : list document)
    (i : nat) (d d' : document) :
  list_find (fun e => f e = true) col = Some (i, d) ->
  f d' = true ->
  list_find (fun e => f e = true) (<[i := d']> col) = Some (i, d').
Proof.
  intros Hf Hd'. apply list_find_Some in Hf. destruct Hf as (Hi & Hd & Hprev).
  apply list_find_Some. split; [| split].
  - apply list_lookup_insert_eq. eapply lookup_lt_Some. exact Hi.
  - exact Hd'.
  - intros j y Hj Hlt. rewrite list_lookup_insert_ne in Hj by lia.
    exact (Hprev j y Hj Hlt).
Qed.

(** A second [$set] of the same precio matches what the first matched and
    modifies nothing. *)
Lemma updateOne_precio_repetido (c : condicion) (p : number) (col : list document) :
  let f := ("codigo", c) in
  let cambios := [("precio", VNum p)] in
  let col1 := (updateOne f cambios col).1 in
  (updateOne f cambios col1).1 = col1 /\
  modifiedCount (updateOne f cambios col1).2 = 0.
Proof.
  intros f cambios col1. subst col1. unfold updateOne.
  destruct (list_find _ col) as [[i d] |] eqn:Hf.
  - destruct (cambia cambios d) eqn:Hc; cbn [fst].
    + assert (coincide f (aplicaSet cambios d) = true) as Hd'.
      { apply list_find_Some in Hf. destruct Hf as (_ & Hd & _).
        unfold coincide, f in *. cbn [fst snd] in *.
        unfold cambios, aplicaSet. cbn [fold_left].
        rewrite prop_asigna_ne by discriminate. exact Hd. }
      rewrite (list_find_insert_mismo _ _ _ _ _ Hf Hd').
      assert (cambia cambios (aplicaSet cambios d) = false) as Hc'.
      { unfold cambia, cambios, aplicaSet. cbn [existsb fold_left fst snd].
        rewrite prop_asigna_eq, valueEqb_num. reflexivity. }
      rewrite Hc'. split; reflexivity.
    + rewrite Hf, Hc. split; reflexivity.
  - cbn [fst]. rewrite Hf. split; reflexivity.
Qed.



(** ** Replace *)

Lemma prop_asigna (d : document) (k k' : string) (v : value) :
  prop (asigna d (k, v)) k' = if String.eqb k k' then v else prop d k'.
Proof.
  destruct (String.eqb_spec k k') as [<- | Hne].
  - apply prop_asigna_eq.
  - now apply prop_asigna_ne.
Qed.

Lemma prop_aplicaSet (cambios : object) (d : document) (k : string) :
  NoDup (keys cambios) ->
  prop (aplicaSet cambios d) k
  = if includes (keys cambios) k then prop cambios k else prop d k.
Proof.
  unfold aplicaSet, includes, keys. revert d.
  induction cambios as [| [k0 v0] r IH]; intros d Hnd; [reflexivity |].
  cbn [fold_left map fst] in *. apply NoDup_cons in Hnd. destruct Hnd as [Hk0 Hnd].
  rewrite (IH _ Hnd). cbn [existsb prop].
  rewrite (String.eqb_sym k k0). rewrite prop_asigna.
  destruct (String.eqb_spec k0 k) as [<- | Hne]; cbn [orb]; [| reflexivity].
  destruct (existsb (String.eqb k0) (map fst r)) eqn:E; [| reflexivity].
  exfalso. apply Hk0. apply list_elem_of_In.
  now apply (includes_In (map fst r) k0).
Qed.

Lemma sin_exito (p : peticion) (w : mundo) (r : response) :
  disponible w = false \/ averiado w = true ->
  In r (respuestas (atiende p w).1) ->
  status r = 400 \/ status r = 404 \/ status r = 500 \/ p = GetRaiz.
Proof.
  destruct w as [col id [] [] rc]; intros [H | H]; try discriminate H; clear H;
    destruct p as [| c | n | pr | c | body | c body | c body | c |]; rutas.
  all: ramifica.
  all: cbn; try (intros [<- | []]); try (intros []); cbn; tauto.
Qed.

(** X12: when the replace operation answers 200, one document, the first that
    answers to the code of the path, has been rewritten: each field of the
    body now holds the value of the body, the codigo included, whatever the
    code of the path; the fields the body does not have, and all the other
    documents, are as before.  No document is added. *)
Theorem put_reemplaza (codigo : string) (body : object) (w w' : mundo)
    (t : list evento) (r : response) :
  atiende (Put codigo body) w = (t, w') ->
  In r (respuestas t) ->
  status r = 200 ->
  NoDup (keys body) ->
  exists (i : nat) (d : document),
    coleccion w !! i = Some d /\
    coincide ("codigo", Igual (parseInt (trim codigo))) d = true /\
    (forall j e, coleccion w !! j = Some e -> (j < i)%nat ->
                 coincide ("codigo", Igual (parseInt (trim codigo))) e <> true) /\
    coleccion w' = <[i := aplicaSet body d]> (coleccion w) /\
    (forall k, In k (keys body) -> prop (aplicaSet body d) k = prop body k) /\
    (forall k, ~ In k (keys body) -> prop (aplicaSet body d) k = prop d k) /\
    (forall j, j <> i -> coleccion w' !! j = coleccion w !! j) /\
    length (coleccion w') = length (coleccion w) /\
    json r = exitoCon (VObj body) "Datos modificados con éxito".
Proof.
  intros Hat Hin Hst Hnd.
  destruct (validateReplace codigo body) eqn:Hv.
  2:{ destruct (put_invalido codigo body w Hv) as (msg & E).
      rewrite E in Hat. injection Hat as <- <-.
      destruct Hin as [<- | []]. discriminate. }
  destruct (disponible w) eqn:Hd.
  2:{ pose proof (sin_exito (Put codigo body) w r (or_introl Hd)) as H.
      rewrite Hat in H. destruct (H Hin) as [H1 | [H1 | [H1 | H1]]];
        try discriminate H1; rewrite H1 in Hst; discriminate. }
  destruct (averiado w) eqn:Ha.
  1:{ pose proof (sin_exito (Put codigo body) w r (or_intror Ha)) as H.
      rewrite Hat in H. destruct (H Hin) as [H1 | [H1 | [H1 | H1]]];
        try discriminate H1; rewrite H1 in Hst; discriminate. }
  rewrite (put_validado _ _ _ Hv Hd Ha) in Hat. cbv zeta in Hat.
  injection Hat as <- <-. destruct Hin as [<- | []].
  unfold respuestaPut, updateOne, acuse in *.
  destruct (list_find _ (coleccion w)) as [[i d] |] eqn:Hf.
  2:{ destruct (reconoce w); discriminate. }
  apply list_find_Some in Hf. destruct Hf as (Hi & Hm & Hprimero).
  destruct (cambia body d) eqn:Hc.
  2:{ destruct (reconoce w); discriminate. }
  destruct (reconoce w); [| discriminate]. cbn in Hst |- *.
  exists i, d. repeat split; try assumption.
  - intros k Hk. rewrite (prop_aplicaSet _ _ _ Hnd).
    now rewrite (proj2 (includes_In (keys body) k) Hk).
  - intros k Hk. rewrite (prop_aplicaSet _ _ _ Hnd).
    destruct (includes (keys body) k) eqn:E; [| reflexivity].
    apply includes_In in E. contradiction.
  - intros j Hj. apply list_lookup_insert_ne. congruence.
  - apply length_insert.
Qed.

Lemma put_reemplaza_testigo :
  exists (i : nat) (d : document),
    [Ejemplos.monitor] !! i = Some d /\
    coleccion (atiende (Put "5" Ejemplos.raton)
                       (Ejemplos.almacen [Ejemplos.monitor])).2
    = <[i := aplicaSet Ejemplos.raton d]> [Ejemplos.monitor] /\
    prop (aplicaSet Ejemplos.raton d) "codigo" = VNum (Fin 10 0) /\
    prop (aplicaSet Ejemplos.raton d) "_id" = prop d "_id".
Proof.
  destruct (put_reemplaza "5" Ejemplos.raton
              (Ejemplos.almacen [Ejemplos.monitor])
              (atiende (Put "5" Ejemplos.raton)
                       (Ejemplos.almacen [Ejemplos.monitor])).2
              (atiende (Put "5" Ejemplos.raton)
                       (Ejemplos.almacen [Ejemplos.monitor])).1
              {| status := 200;
                 json := exitoCon (VObj Ejemplos.raton) "Datos modificados con éxito" |})
    as (i & d & Hi & _ & _ & Hcol & Hin & Hout & _).
  - reflexivity.
  - left. reflexivity.
  - reflexivity.
  - apply (bool_decide_unpack _). reflexivity.
  - exists i, d. split; [exact Hi |]. split; [exact Hcol |]. split.
    + apply (Hin "codigo"). left. reflexivity.
    + apply Hout. cbn. intros H.
      repeat (destruct H as [H | H]; try discriminate H). exact H.
Defined.



(** ** Delete *)



Lemma findOne_delete_unico (n : number) (col : list document) :
  unicos col ->
  findOne ("codigo", Igual n) (deleteOne ("codigo", Igual n) col).1 = None.
Proof.
  intros Hu. unfold deleteOne, findOne.
  destruct (list_find _ col) as [[i d] |] eqn:Hf; cbn [fst].
  - apply list_find_Some in Hf. destruct Hf as (Hi & Hd & _).
    destruct (List.find _ (delete i col)) as [e |] eqn:He; [| reflexivity].
    exfalso. apply find_some in He. destruct He as [Hin He].
    apply list_elem_of_In, list_elem_of_lookup in Hin. destruct Hin as [j Hj].
    destruct (Nat.lt_ge_cases j i) as [Hji | Hji].
    + rewrite list_lookup_delete_lt in Hj by assumption.
      pose proof (Hu n j i e d Hj Hi He Hd). lia.
    + rewrite list_lookup_delete_ge in Hj by assumption.
      pose proof (Hu n (S j) i e d Hj Hi He Hd). lia.
  - rewrite list_find_find, Hf. reflexivity.
Qed.

(** X15: delete, then get by code: when no two documents answer to the same
    code, the code that was deleted is not found afterwards, whether or not
    it was there before. *)
Theorem delete_y_consultar (codigo : string) (w : mundo) :
  numTruthy (parseInt (trim codigo)) = true ->
  disponible w = true ->
  averiado w = false ->
  unicos (coleccion w) ->
  respuestas (atiende (GetCodigo codigo) (atiende (Delete codigo) w).2).1
  = [{| status := 404;
        json := fallo ("El producto con código "
                       +:+ numToString (parseInt (trim codigo)) +:+ " no existe") |}].
Proof.
  intros Hn Hd Ha Hu.
  rewrite (delete_validado _ _ Hn Hd Ha). cbv zeta. cbn [snd].
  rewrite getCodigo_numerico; cbn [disponible averiado coleccion conColeccion];
    try assumption.
  - rewrite (findOne_delete_unico _ _ Hu). reflexivity.
  - destruct (parseInt (trim codigo)); [discriminate Hn | reflexivity | reflexivity].
Qed.

Lemma delete_y_consultar_testigo :
  respuestas (atiende (GetCodigo "5")
                (atiende (Delete "5") (Ejemplos.almacen [Ejemplos.monitor])).2).1
  = [{| status := 404;
        json := fallo ("El producto con código "
                       +:+ numToString (parseInt (trim "5")) +:+ " no existe") |}].
Proof.
  apply (delete_y_consultar "5" (Ejemplos.almacen [Ejemplos.monitor]));
    try reflexivity.
  apply unicos_uno.
Defined.

Import Patrones Regex.

(** ** The matcher decides the match relation *)

Lemma append_vacio_der (s : string) : s +:+ "" = s.
Proof. induction s as [| c s IH]; [reflexivity |]. now rewrite append_String, IH. Qed.

Lemma append_asoc (a b c : string) : (a +:+ b) +:+ c = a +:+ (b +:+ c).
Proof. induction a as [| x a IH]; [reflexivity |]. now rewrite !append_String, IH. Qed.

Lemma append_es_vacio (a b : string) : a +:+ b = "" -> a = "" /\ b = "".
Proof. destruct a; [now rewrite append_vacio | discriminate]. Qed.

Lemma casa_nada (ini fin : bool) (s : string) : ~ casa ini fin Nada s.
Proof. intros H. inversion H. Qed.

Lemma casa_sec_sii (ini fin : bool) (a b : re) (s : string) :
  casa ini fin (sec a b) s <-> casa ini fin (Sec a b) s.
Proof.
  split.
  - intros H. destruct a; try exact H; destruct b; try exact H;
      try (cbn in H; now apply casa_nada in H).
    all: cbn in H; rewrite <- (append_vacio s); econstructor;
      [constructor | now rewrite andb_true_r].
  - intros H. inversion H as [| | | | | | i f a0 b0 s1 s2 Ha Hb | | | |]; subst.
    destruct a; try (now apply casa_nada in Ha);
      destruct b; try (now apply casa_nada in Hb); try exact H.
    all: inversion Ha; subst; rewrite append_vacio; cbn;
      now rewrite andb_true_r in Hb.
Qed.

Lemma casa_alt_sii (ini fin : bool) (a b : re) (s : string) :
  casa ini fin (alt a b) s <-> casa ini fin a s \/ casa ini fin b s.
Proof.
  split.
  - intros H. destruct a; try (right; exact H); destruct b;
      try (left; exact H); cbn in H;
      inversion H; subst; tauto.
  - intros [H | H].
    + destruct a; try (now apply casa_nada in H); destruct b; cbn;
        try exact H; now apply casa_alt_izq.
    + destruct b; try (now apply casa_nada in H); destruct a; cbn;
        try exact H; now apply casa_alt_der.
Qed.

Lemma casa_anulable (ini fin : bool) (r : re) :
  anulable ini fin r = true <-> casa ini fin r "".
Proof.
  revert ini fin. induction r as [| | c | | | | | a IHa b IHb | a IHa b IHb | a IHa];
    intros ini fin; cbn [anulable].
  - split; [discriminate | intros H; inversion H].
  - split; [constructor | reflexivity].
  - split; [discriminate | intros H; inversion H].
  - split; [discriminate | intros H; inversion H].
  - split; [discriminate | intros H; inversion H].
  - split; [intros ->; constructor | intros H; now inversion H].
  - split; [intros ->; constructor | intros H; now inversion H].
  - rewrite andb_true_iff, IHa, IHb. split.
    + intros [Ha Hb]. rewrite <- (append_vacio ""). constructor.
      * now rewrite andb_true_r.
      * now rewrite andb_true_r.
    + intros H. inversion H as [| | | | | | i f a0 b0 s1 s2 Ha Hb | | | |]; subst.
      match goal with E : _ +:+ _ = "" |- _ => apply append_es_vacio in E; destruct E; subst end.
      rewrite andb_true_r in Ha, Hb. now split.
  - rewrite orb_true_iff, IHa, IHb. split.
    + intros [H | H]; [now apply casa_alt_izq | now apply casa_alt_der].
    + intros H. inversion H; subst; tauto.
  - split; [constructor | reflexivity].
Qed.

(** Reading one character: what is left to match is the derivative. *)
Lemma casa_deriva (r : re) (ini fin : bool) (c : ascii) (s : string) :
  casa ini fin r (String c s) <-> casa false fin (deriva ini c r) s.
Proof.
  revert ini fin s.
  induction r as [| | x | | | | | a IHa b IHb | a IHa b IHb | a IHa];
    intros ini fin s; cbn [deriva].
  - split; intros H; inversion H.
  - split; intros H; inversion H.
  - split.
    + intros H. inversion H; subst.
      match goal with E : igualCar _ _ = true |- _ => rewrite E end. constructor.
    + destruct (igualCar x c) eqn:E; intros H; inversion H; subst. now constructor.
  - split.
    + intros H. inversion H; subst.
      match goal with E : _ || _ = false |- _ => rewrite E end. constructor.
    + destruct (_ || _) eqn:E; intros H; inversion H; subst. now constructor.
  - split.
    + intros H. inversion H; subst. constructor.
    + intros H. inversion H; subst. constructor.
  - split; intros H; inversion H.
  - split; intros H; inversion H.
  - rewrite casa_alt_sii, casa_sec_sii. split.
    + intros H. inversion H as [| | | | | | i f a0 b0 s1 s2 Ha Hb | | | |]; subst.
      destruct s1 as [| y s1].
      * match goal with E : _ +:+ _ = String _ _ |- _ =>
          rewrite append_vacio in E; subst s2 end.
        right. cbn [vacia] in Ha. rewrite andb_false_r in Ha.
        rewrite andb_true_r in Hb.
        apply casa_anulable in Ha. rewrite Ha. now apply IHb.
      * match goal with E : _ +:+ _ = String _ _ |- _ =>
          rewrite append_String in E; injection E as -> <- end.
        left. apply IHa in Ha. cbn [vacia] in Hb. rewrite andb_false_r in Hb.
        now constructor.
    + intros [H | H].
      * inversion H as [| | | | | | i f a0 b0 s1 s2 Ha Hb | | | |]; subst.
        change (String c (s1 +:+ s2)) with (String c s1 +:+ s2).
        constructor; [now apply IHa | cbn [vacia]; now rewrite andb_false_r].
      * destruct (anulable ini false a) eqn:Ea; [| now apply casa_nada in H].
        apply casa_anulable in Ea. apply IHb in H.
        rewrite <- (append_vacio (String c s)).
        constructor; [cbn [vacia]; now rewrite andb_false_r | now rewrite andb_true_r].
  - rewrite casa_alt_sii, <- IHa, <- IHb. split.
    + intros H. inversion H; subst; tauto.
    + intros [H | H]; [now apply casa_alt_izq | now apply casa_alt_der].
  - rewrite casa_sec_sii. split.
    + intros H. inversion H as [| | | | | | | | | | i f a0 y s1 s2 Ha Hb]; subst.
      apply IHa in Ha. now constructor.
    + intros H. inversion H as [| | | | | | i f a0 b0 s1 s2 Ha Hb | | | |]; subst.
      change (String c (s1 +:+ s2)) with (String c s1 +:+ s2).
      apply casa_rep_mas; [now apply IHa | exact Hb].
Qed.

(** The matcher accepts a subject exactly when the pattern matches it as
    a whole. *)
Lemma recorre_casa (r : re) (ini : bool) (s : string) :
  recorre ini r s = true <-> casa ini true r s.
Proof.
  revert r ini. induction s as [| c s IH]; intros r ini; cbn [recorre].
  - apply casa_anulable.
  - rewrite IH. symmetry. apply casa_deriva.
Qed.

Lemma casa_rep_todo (ini fin : bool) (s : string) : casa ini fin (Rep Todo) s.
Proof.
  revert ini. induction s as [| c s IH]; intros ini; [constructor |].
  change (String c s) with (String c "" +:+ s).
  apply casa_rep_mas; [constructor | apply IH].
Qed.

(** [test]: some piece of the subject matches. *)
Lemma test_casa (r : re) (s : string) :
  test r s = true <->
  exists a m b, s = a +:+ m +:+ b /\ casa (vacia a) (vacia b) r m.
Proof.
  unfold test. rewrite recorre_casa. split.
  - intros H. inversion H as [| | | | | | i f a0 b0 s1 s2 Ha Hb | | | |]; subst.
    inversion Hb as [| | | | | | i f a1 b1 s3 s4 Hm Hr | | | |]; subst.
    exists s1, s3, s4. split; [reflexivity |].
    cbn [andb] in Hm. exact Hm.
  - intros (a & m & b & -> & Hm).
    constructor; [apply casa_rep_todo |].
    constructor; [exact Hm | apply casa_rep_todo].
Qed.

(** ** Patterns without pattern characters *)

Lemma casa_literal (q : string) (k : re) (ini fin : bool) (s : string) :
  casa ini fin (literal q k) s <->
  exists s1 s2, s = s1 +:+ s2 /\ igualSinCaja q s1 = true /\
                casa (ini && vacia s1) fin k s2.
Proof.
  revert ini s. induction q as [| c q IH]; intros ini s; cbn [literal].
  - split.
    + intros H. exists "", s. rewrite andb_true_r. repeat split. exact H.
    + intros (s1 & s2 & -> & E & H). destruct s1; [| discriminate E].
      now rewrite andb_true_r in H.
  - split.
    + intros H. inversion H as [| | | | | | i f a0 b0 s1 s2 Ha Hb | | | |]; subst.
      inversion Ha as [| i f c0 x Hx | | | | | | | | |]; subst.
      apply IH in Hb. destruct Hb as (t1 & t2 & -> & E & Hk).
      exists (String x t1), t2. cbn [igualSinCaja vacia] in *.
      rewrite andb_false_r in *. rewrite Hx, E. repeat split. exact Hk.
    + intros (s1 & s2 & -> & E & H). destruct s1 as [| x s1]; [discriminate E |].
      cbn [igualSinCaja] in E. apply andb_true_iff in E. destruct E as [Hx E].
      change (String x s1 +:+ s2) with (String x "" +:+ (s1 +:+ s2)).
      constructor; [now constructor |]. apply IH. exists s1, s2.
      cbn [vacia] in *. rewrite andb_false_r in *. repeat split; assumption.
Qed.

(** The anchored pattern of a text matches the subjects equal to the
    text, without regard to case. *)
Lemma test_anclado (q s : string) :
  test (Sec Bol (literal q (Sec Eol Vacio))) s = igualSinCaja q s.
Proof.
  apply eq_true_iff_eq. rewrite test_casa. split.
  - intros (a & m & b & -> & H).
    inversion H as [| | | | | | i f a0 b0 s1 s2 Ha Hb | | | |]; subst.
    inversion Ha; subst. rewrite append_vacio in *.
    destruct a; [| discriminate]. rewrite append_vacio.
    apply casa_literal in Hb. destruct Hb as (t1 & t2 & -> & E & Hk).
    inversion Hk as [| | | | | | i f a1 b1 u1 u2 He Hv | | | |]; subst.
    inversion He; subst. inversion Hv; subst.
    match goal with E : true = vacia b && _ |- _ =>
      destruct b; [| discriminate E] end.
    now rewrite !append_vacio_der.
  - intros E. exists "", s, "". split; [now rewrite append_vacio, append_vacio_der |].
    rewrite <- (append_vacio s). constructor; [constructor |].
    apply casa_literal. exists s, "". rewrite append_vacio_der.
    repeat split; [exact E |].
    rewrite <- (append_vacio ""). constructor; constructor.
Qed.

Lemma empiezaSinCaja_sii (q s : string) :
  empiezaSinCaja q s = true <->
  exists m b, s = m +:+ b /\ igualSinCaja q m = true.
Proof.
  revert s. induction q as [| x q IH]; intros s.
  - split; [intros _; now exists "", s |]. reflexivity.
  - destruct s as [| y s]; cbn [empiezaSinCaja].
    + split; [discriminate |]. intros (m & b & E & H).
      symmetry in E. apply append_es_vacio in E. destruct E as [-> _]. discriminate H.
    + rewrite andb_true_iff, IH. split.
      * intros (Hx & m & b & -> & H). exists (String y m), b.
        split; [reflexivity |]. cbn [igualSinCaja]. now rewrite Hx, H.
      * intros (m & b & E & H). destruct m as [| z m]; [discriminate H |].
        rewrite append_String in E. injection E as -> ->.
        cbn [igualSinCaja] in H. apply andb_true_iff in H. destruct H as [Hx H].
        split; [exact Hx |]. now exists m, b.
Qed.

Lemma contieneSinCaja_sii (q s : string) :
  contieneSinCaja q s = true <->
  exists a m b, s = a +:+ m +:+ b /\ igualSinCaja q m = true.
Proof.
  induction s as [| y s IH].
  - cbn [contieneSinCaja]. rewrite orb_false_r, empiezaSinCaja_sii. split.
    + intros (m & b & E & H). now exists "", m, b.
    + intros (a & m & b & E & H). symmetry in E.
      apply append_es_vacio in E. destruct E as [-> E]. now exists m, b.
  - cbn [contieneSinCaja]. rewrite orb_true_iff, IH, empiezaSinCaja_sii. split.
    + intros [(m & b & E & H) | (a & m & b & E & H)].
      * now exists "", m, b.
      * exists (String y a), m, b. now rewrite append_String, E.
    + intros (a & m & b & E & H). destruct a as [| z a].
      * left. now exists m, b.
      * right. rewrite append_String in E. injection E as -> ->. now exists a, m, b.
Qed.

(** The pattern of a text matches the subjects in which the text occurs,
    without regard to case. *)
Lemma test_literal (q s : string) :
  test (literal q Vacio) s = contieneSinCaja q s.
Proof.
  apply eq_true_iff_eq. rewrite test_casa, contieneSinCaja_sii. split.
  - intros (a & m & b & -> & H). apply casa_literal in H.
    destruct H as (t1 & t2 & -> & E & Hk). inversion Hk; subst.
    exists a, t1, b. now rewrite append_vacio_der.
  - intros (a & m & b & -> & E). exists a, m, b. split; [reflexivity |].
    apply casa_literal. exists m, "". rewrite append_vacio_der.
    repeat split; [exact E | constructor].
Qed.

(** ** The pattern of a parameter without pattern characters *)

Lemma termino_plano (n : nat) (c : ascii) (r : string) :
  esSintactico c = false ->
  termino (S n) (String c r) = Some (cuantifica (Car c) r).
Proof.
  destruct c as [[] [] [] [] [] [] [] []]; intros H; try discriminate H; reflexivity.
Qed.

Lemma alternativa_plano (n : nat) (c : ascii) (r : string) :
  esSintactico c = false ->
  alternativa (S n) (String c r)
  = match termino n (String c r) with
    | Some (t, r') =>
        match alternativa n r' with
        | Some (a, r'') => Some (Sec t a, r'')
        | None => None
        end
    | None => None
    end.
Proof.
  destruct c as [[] [] [] [] [] [] [] []]; intros H; try discriminate H; reflexivity.
Qed.

Lemma cuantifica_nada (a : re) (k : string) :
  sinCuantificador k = true -> cuantifica a k = (a, k).
Proof.
  destruct k as [| c k]; [reflexivity |].
  destruct c as [[] [] [] [] [] [] [] []]; intros H; try discriminate H; reflexivity.
Qed.

Lemma plano_sin_cuantificador (c : ascii) (r : string) :
  esSintactico c = false -> sinCuantificador (String c r) = true.
Proof.
  destruct c as [[] [] [] [] [] [] [] []]; intros H; try discriminate H; reflexivity.
Qed.

Lemma alternativa_literal (q k : string) (n : nat) :
  sinPatron q = true ->
  sinCuantificador k = true ->
  alternativa (String.length q + S n) (q +:+ k)
  = match alternativa (S n) k with
    | Some (K, r) => Some (literal q K, r)
    | None => None
    end.
Proof.
  intros Hq Hk. induction q as [| c q IH].
  - rewrite append_vacio. cbn [String.length Nat.add literal].
    destruct (alternativa (S n) k) as [[K r] |]; reflexivity.
  - cbn [sinPatron] in Hq. apply andb_true_iff in Hq. destruct Hq as [Hc Hq].
    apply negb_true_iff in Hc.
    rewrite append_String. cbn [String.length Nat.add].
    rewrite (alternativa_plano _ _ _ Hc), Nat.add_succ_r.
    rewrite (termino_plano _ _ _ Hc), cuantifica_nada.
    + rewrite <- Nat.add_succ_r, (IH Hq).
      destruct (alternativa (S n) k) as [[K r] |]; reflexivity.
    + destruct q as [| c' q'].
      * now rewrite append_vacio.
      * rewrite append_String. cbn [sinPatron] in Hq.
        apply andb_true_iff in Hq. destruct Hq as [Hc' _].
        apply negb_true_iff in Hc'. now apply plano_sin_cuantificador.
Qed.

Lemma length_append (a b : string) :
  String.length (a +:+ b) = (String.length a + String.length b)%nat.
Proof.
  induction a as [| c a IH]; [reflexivity |].
  rewrite append_String. cbn [String.length]. now rewrite IH.
Qed.

Lemma disyuncion_simple (n : nat) (s : string) (r : re) :
  alternativa n s = Some (r, "") -> disyuncion (S n) s = Some (r, "").
Proof. intros H. cbn [disyuncion]. now rewrite H. Qed.

Lemma alternativa_bol (n : nat) (r : string) :
  alternativa (S (S n)) (String "^" r)
  = match alternativa (S n) r with
    | Some (a, r') => Some (Sec Bol a, r')
    | None => None
    end.
Proof. reflexivity. Qed.

(** The pattern of the search by name. *)
Lemma compila_literal (q : string) :
  sinPatron q = true -> compila q = Some (literal q Vacio).
Proof.
  intros Hq. unfold compila.
  replace (4 * String.length q + 4)%nat
    with (S (String.length q + S (3 * String.length q + 2)))%nat by lia.
  rewrite (disyuncion_simple _ _ (literal q Vacio)); [reflexivity |].
  pose proof (alternativa_literal q "" (3 * String.length q + 2) Hq eq_refl) as H.
  rewrite append_vacio_der in H. rewrite H. reflexivity.
Qed.

(** The pattern of the search by category. *)
Lemma compila_anclado (q : string) :
  sinPatron q = true ->
  compila ("^" +:+ q +:+ "$") = Some (Sec Bol (literal q (Sec Eol Vacio))).
Proof.
  intros Hq. unfold compila.
  rewrite append_String, append_vacio. cbn [String.length].
  rewrite length_append. cbn [String.length].
  replace (4 * S (String.length q + 1) + 4)%nat
    with (S (S (S (String.length q + (9 + 3 * String.length q)))))%nat by lia.
  rewrite (disyuncion_simple _ _ (Sec Bol (literal q (Sec Eol Vacio))));
    [reflexivity |].
  rewrite alternativa_bol, <- Nat.add_succ_r.
  rewrite (alternativa_literal q "$" _ Hq eq_refl). reflexivity.
Qed.

(** ** The searches by text, on parameters without pattern characters *)

Lemma coincide_texto (campo : string) (r : re) (d : document) :
  coincide (campo, Expr r) d = textoCumple (test r) (prop d campo).
Proof.
  unfold coincide, textoCumple. cbn [fst snd].
  destruct (prop d campo); reflexivity.
Qed.

Lemma textoCumple_ext (p p' : string -> bool) (v : value) :
  (forall s, p s = p' s) -> textoCumple p v = textoCumple p' v.
Proof.
  intros H. destruct v; cbn [textoCumple]; try reflexivity; [apply H |].
  induction l as [| x l IH]; [reflexivity |]. cbn [existsb]. rewrite IH.
  destruct x; try reflexivity. now rewrite H.
Qed.





(** ** The search by code *)



(** ** The list of all products *)

Import Listado.

(** *** The order of numbers *)

Lemma cmpFin_escala (m1 e1 m2 e2 k : Z) :
  k <= e1 -> k <= e2 ->
  cmpFin m1 e1 m2 e2 = (m1 * 10 ^ (e1 - k) ?= m2 * 10 ^ (e2 - k)).
Proof.
  intros H1 H2. unfold cmpFin. set (e := Z.min e1 e2).
  assert (k <= e) as He by (unfold e; lia).
  assert (e <= e1 /\ e <= e2) as [He1 He2] by (unfold e; lia).
  replace (e1 - k) with ((e1 - e) + (e - k)) by lia.
  replace (e2 - k) with ((e2 - e) + (e - k)) by lia.
  rewrite !Z.pow_add_r by lia.
  assert (0 < 10 ^ (e - k)) as Hp by (apply Z.pow_pos_nonneg; lia).
  rewrite !Z.mul_assoc.
  destruct (Z.compare_spec (m1 * 10 ^ (e1 - e)) (m2 * 10 ^ (e2 - e))) as [H | H | H];
    symmetry.
  - rewrite H. apply Z.compare_refl.
  - apply Z.compare_lt_iff. now apply Z.mul_lt_mono_pos_r.
  - apply Z.compare_gt_iff. now apply Z.mul_lt_mono_pos_r.
Qed.

Lemma cmpFin_opuesto (m1 e1 m2 e2 : Z) :
  cmpFin m1 e1 m2 e2 = CompOpp (cmpFin m2 e2 m1 e1).
Proof.
  unfold cmpFin. rewrite (Z.min_comm e2 e1). apply Z.compare_antisym.
Qed.

Lemma numLt_trans (a b c : number) :
  numLt a b = true -> numLt b c = true -> numLt a c = true.
Proof.
  destruct a as [| [] | m1 e1], b as [| [] | m2 e2], c as [| [] | m3 e3];
    try discriminate; try reflexivity.
  unfold numLt. set (k := Z.min e1 (Z.min e2 e3)).
  rewrite (cmpFin_escala m1 e1 m2 e2 k), (cmpFin_escala m2 e2 m3 e3 k),
    (cmpFin_escala m1 e1 m3 e3 k) by (unfold k; lia).
  destruct (Z.compare_spec (m1 * 10 ^ (e1 - k)) (m2 * 10 ^ (e2 - k)));
    try discriminate.
  destruct (Z.compare_spec (m2 * 10 ^ (e2 - k)) (m3 * 10 ^ (e3 - k)));
    try discriminate.
  intros _ _.
  destruct (Z.compare_spec (m1 * 10 ^ (e1 - k)) (m3 * 10 ^ (e3 - k)));
    [lia | reflexivity | lia].
Qed.

Lemma numLe_trans (a b c : number) :
  numLe a b = true -> numLe b c = true -> numLe a c = true.
Proof.
  destruct a as [| [] | m1 e1], b as [| [] | m2 e2], c as [| [] | m3 e3];
    try discriminate; try reflexivity.
  unfold numLe, numLt, numEq. set (k := Z.min e1 (Z.min e2 e3)).
  rewrite (cmpFin_escala m1 e1 m2 e2 k), (cmpFin_escala m2 e2 m3 e3 k),
    (cmpFin_escala m1 e1 m3 e3 k) by (unfold k; lia).
  destruct (Z.compare_spec (m1 * 10 ^ (e1 - k)) (m2 * 10 ^ (e2 - k)));
    try discriminate;
  destruct (Z.compare_spec (m2 * 10 ^ (e2 - k)) (m3 * 10 ^ (e3 - k)));
    try discriminate; intros _ _;
  destruct (Z.compare_spec (m1 * 10 ^ (e1 - k)) (m3 * 10 ^ (e3 - k)));
    first [reflexivity | lia].
Qed.

(** Among numbers other than [NaN], the order of the store is the order
    of the language. *)
Lemma cmpNum_Lt (x y : number) :
  isNaN x = false -> isNaN y = false ->
  cmpNum x y = Lt -> numLt x y = true.
Proof.
  destruct x as [| [] | m1 e1], y as [| [] | m2 e2]; try discriminate;
    try reflexivity.
  cbn. now intros _ _ ->.
Qed.

Lemma cmpNum_no_Lt (x y : number) :
  isNaN x = false -> isNaN y = false ->
  cmpNum x y <> Lt -> numLe y x = true.
Proof.
  destruct x as [| [] | m1 e1], y as [| [] | m2 e2]; try discriminate;
    try reflexivity; try (intros _ _ H; now destruct H).
  cbn. intros _ _. unfold numLe, numLt, numEq.
  rewrite (cmpFin_opuesto m2 e2 m1 e1).
  destruct (cmpFin m1 e1 m2 e2); [reflexivity | intros H; now destruct H | reflexivity].
Qed.

Lemma numLe_no_igual (x y : number) :
  numLe y x = true -> numIgual y x = false -> numLt y x = true.
Proof.
  unfold numLe. destruct (numLt y x); [reflexivity |]. cbn.
  destruct y as [| [] | m1 e1], x as [| [] | m2 e2]; cbn; congruence.
Qed.

(** *** The sort *)

Lemma inserta_Permutation (campo : string) (d : document) (l : list document) :
  Permutation (inserta campo d l) (d :: l).
Proof.
  induction l as [| e r IH]; cbn [inserta]; [reflexivity |].
  destruct (cmpClave _ _); try reflexivity.
  rewrite IH. apply perm_swap.
Qed.

Lemma sortDesc_Permutation (campo : string) (col : list document) :
  Permutation (sortDesc campo col) col.
Proof.
  induction col as [| d col IH]; cbn [sortDesc fold_right]; [reflexivity |].
  rewrite inserta_Permutation. now apply perm_skip.
Qed.

Lemma cmpClave_numeros (d e : document) (x y : number) :
  prop d "codigo" = VNum x -> prop e "codigo" = VNum y ->
  cmpClave (claveDesc "codigo" d) (claveDesc "codigo" e) = cmpNum x y.
Proof.
  intros Hd He. unfold claveDesc. rewrite Hd, He. reflexivity.
Qed.

Lemma desciende_trans (d e f : document) :
  desciende d e -> desciende e f -> desciende d f.
Proof.
  intros (x & y & Hx & Hy & H1) (y' & z & Hy' & Hz & H2).
  rewrite Hy in Hy'. injection Hy' as <-.
  exists x, z. repeat split; try assumption. eapply numLe_trans; eassumption.
Qed.

Lemma desciendeEstricto_trans (d e f : document) :
  desciendeEstricto d e -> desciendeEstricto e f -> desciendeEstricto d f.
Proof.
  intros (x & y & Hx & Hy & H1) (y' & z & Hy' & Hz & H2).
  rewrite Hy in Hy'. injection Hy' as <-.
  exists x, z. repeat split; try assumption. eapply numLt_trans; eassumption.
Qed.

Lemma inserta_Sorted (d : document) (l : list document) :
  codigosNumericos (d :: l) ->
  Sorted desciende l -> Sorted desciende (inserta "codigo" d l).
Proof.
  intros Hn Hs. induction Hs as [| e r Hr IH Hh]; cbn [inserta].
  - repeat constructor.
  - destruct (Hn d (or_introl eq_refl)) as (x & Hx & Nx).
    destruct (Hn e (or_intror (or_introl eq_refl))) as (y & Hy & Ny).
    rewrite (cmpClave_numeros d e x y Hx Hy).
    assert (codigosNumericos (d :: r)) as Hn'.
    { intros g [<- | Hg]; apply Hn; [now left | now right; right]. }
    destruct (cmpNum x y) eqn:E.
    + constructor; [now constructor |]. constructor. exists x, y.
      repeat split; try assumption. apply cmpNum_no_Lt; congruence.
    + constructor; [now apply IH |].
      assert (desciende e d) as Hed.
      { exists y, x. repeat split; try assumption.
        unfold numLe. rewrite (cmpNum_Lt x y Nx Ny E). reflexivity. }
      destruct r as [| g r']; cbn [inserta]; [now constructor |].
      destruct (cmpClave _ _); constructor; try assumption;
        now inversion Hh.
    + constructor; [now constructor |]. constructor. exists x, y.
      repeat split; try assumption. apply cmpNum_no_Lt; congruence.
Qed.

Lemma sortDesc_Sorted (col : list document) :
  codigosNumericos col -> Sorted desciende (sortDesc "codigo" col).
Proof.
  induction col as [| d col IH]; intros Hn; cbn [sortDesc fold_right].
  - constructor.
  - apply inserta_Sorted.
    + intros g [<- | Hg]; [apply Hn; now left |].
      apply Hn. right. eapply Permutation_in; [apply sortDesc_Permutation | exact Hg].
    + apply IH. intros g Hg. apply Hn. now right.
Qed.

(** *** Codes that do not repeat *)

Lemma unicos_Permutation (l col : list document) :
  Permutation l col -> unicos col -> unicos l.
Proof.
  intros Hp Hu. apply Permutation_inj in Hp as (_ & f & Hf & Hl).
  intros n i j d e Hi Hj Hd He. rewrite Hl in Hi, Hj.
  apply Hf. exact (Hu n _ _ d e Hi Hj Hd He).
Qed.

Lemma unicos_cola (d : document) (l : list document) :
  unicos (d :: l) -> unicos l.
Proof.
  intros Hu n i j a b Hi Hj Ha Hb.
  assert (S i = S j) as H by exact (Hu n (S i) (S j) a b Hi Hj Ha Hb).
  now injection H.
Qed.

Lemma coincide_su_codigo (d : document) (x y : number) :
  prop d "codigo" = VNum x -> coincide ("codigo", Igual y) d = numIgual x y.
Proof. intros H. unfold coincide. cbn [fst snd]. now rewrite H. Qed.

Lemma Sorted_estricto (l : list document) :
  unicos l -> Sorted desciende l -> Sorted desciendeEstricto l.
Proof.
  intros Hu Hs. induction Hs as [| d r Hr IH Hh]; constructor.
  - apply IH. eapply unicos_cola. exact Hu.
  - destruct Hh as [| e r' (x & y & Hx & Hy & Hle)]; constructor.
    exists x, y. repeat split; try assumption.
    apply numLe_no_igual; [assumption |].
    destruct (numIgual y x) eqn:E; [| reflexivity]. exfalso.
    assert (0%nat = 1%nat) as H; [| discriminate H].
    apply (Hu x 0%nat 1%nat d e); try reflexivity.
    + rewrite (coincide_su_codigo d x x Hx). apply numIgual_refl.
    + now rewrite (coincide_su_codigo e y x Hy).
Qed.

(** *** The handler *)

Lemma getComputacion_200 (w : mundo) :
  disponible w = true -> averiado w = false ->
  getComputacion w =
    (Valor tt, w,
     [Comun EvConnect; EvFindSort "codigo" (-1);
      Comun (EvSend {| status := 200;
                       json := exitoCon (documentos (sortDesc "codigo" (coleccion w)))
                                        "Productos obtenidos" |});
      Comun EvClose]).
Proof.
  destruct w as [col id dsp av rc]. cbn [disponible averiado coleccion].
  intros -> ->. reflexivity.
Qed.

(** X19: with the store at hand, the list of all products answers 200 once
    with every stored document exactly once (the documents of the answer
    are a rearrangement of the collection), after one sorted query and
    between opening and closing the connection; the store is left as it
    was. *)
Theorem listado_completo (w : mundo) :
  disponible w = true -> averiado w = false ->
  exists l : list document,
    Permutation l (coleccion w) /\
    getComputacion w =
      (Valor tt, w,
       [Comun EvConnect; EvFindSort "codigo" (-1);
        Comun (EvSend {| status := 200;
                         json := [("response", documentos l);
                                  ("success", VBool true);
                                  ("msg", VStr "Productos obtenidos")] |});
        Comun EvClose]).
Proof.
  intros Hd Ha. exists (sortDesc "codigo" (coleccion w)). split.
  - apply sortDesc_Permutation.
  - now apply getComputacion_200.
Qed.

Lemma listado_completo_testigo :
  exists l : list document,
    Permutation l [Ejemplos.monitor; Ejemplos.raton] /\
    getComputacion (Ejemplos.almacen [Ejemplos.monitor; Ejemplos.raton]) =
      (Valor tt, Ejemplos.almacen [Ejemplos.monitor; Ejemplos.raton],
       [Comun EvConnect; EvFindSort "codigo" (-1);
        Comun (EvSend {| status := 200;
                         json := [("response", documentos l);
                                  ("success", VBool true);
                                  ("msg", VStr "Productos obtenidos")] |});
        Comun EvClose]).
Proof.
  apply (listado_completo (Ejemplos.almacen [Ejemplos.monitor; Ejemplos.raton]));
    reflexivity.
Defined.

(** X20: when every stored codigo is a number, the documents of the answer
    come in descending order of codigo: each one has a codigo not smaller
    than the codigo of every document after it, and a larger one when no
    two documents share a code. *)
Theorem listado_descendente (w : mundo) :
  disponible w = true -> averiado w = false ->
  codigosNumericos (coleccion w) ->
  exists l : list document,
    respuestasL (getComputacion w).2 =
      [{| status := 200;
          json := exitoCon (documentos l) "Productos obtenidos" |}] /\
    StronglySorted desciende l /\
    (unicos (coleccion w) -> StronglySorted desciendeEstricto l).
Proof.
  intros Hd Ha Hn. exists (sortDesc "codigo" (coleccion w)).
  rewrite (getComputacion_200 w Hd Ha). split; [reflexivity |].
  pose proof (sortDesc_Sorted _ Hn) as Hs. split.
  - apply Sorted_StronglySorted; [| exact Hs].
    intros d e f. apply desciende_trans.
  - intros Hu. apply Sorted_StronglySorted.
    + intros d e f. apply desciendeEstricto_trans.
    + apply Sorted_estricto; [| exact Hs].
      eapply unicos_Permutation; [apply sortDesc_Permutation | exact Hu].
Qed.

Lemma listado_descendente_testigo :
  exists l : list document,
    respuestasL
      (getComputacion (Ejemplos.almacen [Ejemplos.monitor; Ejemplos.raton])).2 =
      [{| status := 200;
          json := exitoCon (documentos l) "Productos obtenidos" |}] /\
    StronglySorted desciende l /\
    (unicos [Ejemplos.monitor; Ejemplos.raton] ->
     StronglySorted desciendeEstricto l).
Proof.
  apply (listado_descendente (Ejemplos.almacen [Ejemplos.monitor; Ejemplos.raton]));
    [reflexivity | reflexivity |].
  intros d [<- | [<- | []]]; eexists; split; reflexivity.
Defined.

(** The two documents of the example come back with the larger code
    first. *)
Example listado_ejemplo :
  respuestasL
    (getComputacion (Ejemplos.almacen [Ejemplos.monitor; Ejemplos.raton])).2 =
    [{| status := 200;
        json := exitoCon (documentos [Ejemplos.raton; Ejemplos.monitor])
                         "Productos obtenidos" |}].
Proof. reflexivity. Qed.

(** X21: the list of all products answers exactly once whatever the state of
    the store, opens the connection first and closes it last, and leaves
    the store as it was; the answer is 200 when the store can be reached
    and takes the query, and 500 otherwise: without a query when the
    connection fails, after the query when the query is rejected. *)
Theorem listado_fallos (w : mundo) :
  exists (r : response) (medio : list eventoListado),
    getComputacion w = (Valor tt, w, Comun EvConnect :: medio ++ [Comun EvClose]) /\
    respuestasL (getComputacion w).2 = [r] /\
    (status r = 200 <-> disponible w = true /\ averiado w = false) /\
    (disponible w = false ->
     medio = [Comun (EvSend {| status := 500;
                               json := fallo "Error al conectarse a MongoDB" |})]) /\
    (disponible w = true -> averiado w = true ->
     medio = [EvFindSort "codigo" (-1);
              Comun (EvSend {| status := 500;
                               json := fallo "Error al obtener los productos de la base de datos" |})]).
Proof.
  destruct w as [col id [] [] rc]; eexists; eexists (_ :: _);
    (split; [reflexivity |]); cbn;
    (split; [reflexivity |]); repeat split; intros; try easy;
    try (destruct H; easy).
Qed.
